(** * The Sendit backend (app.py): a shallow embedding and its properties

    The Flask application of [src/app.py] is embedded as pure functions
    over an explicit database and ORM session.  The collaborators the
    application only calls (the storage engine, the password hasher, the
    token encoder, the clock, the row serialiser of models.py, the
    object model behind [setattr]) are the fields of the class [World];
    every theorem holds for every world. *)

From Stdlib Require Import ZArith String List Bool Lia Ascii.
From stdpp Require Import base option list strings pretty gmap.

Local Open Scope Z_scope.
Local Open Scope string_scope.

(** ** Python values *)

(** The values a JSON body can carry and an attribute can hold: [None],
    booleans, integers, strings, lists and dictionaries. *)
Local Unset Elimination Schemes.
Inductive value : Type :=
| VNone
| VBool (b : bool)
| VInt (z : Z)
| VStr (s : string)
| VList (l : list value)
| VDict (d : list (string * value)).
Local Set Elimination Schemes.

(** A JSON object: the result of [to_dict], the body of a response. *)
Definition dict : Type := list (string * value).

(** [d.get(k)]: the value under [k], Python's [None] when [k] is absent. *)
Definition get (d : gmap string value) (k : string) : value :=
  default VNone (d !! k).

(** [d.get(k, dflt)]. *)
Definition get_default (d : gmap string value) (k : string) (dflt : value) : value :=
  default dflt (d !! k).

(** An exception: its class and its message. *)
Inductive exn : Type := Exn (cls msg : string).

(** ** The models *)

(** The model classes come from models.py, which is not part of the
    sources.  Their columns are those of the spec's data model, which
    are also the keyword arguments the handlers pass to the
    constructors.  An attribute holds any Python value. *)

Module User.
(** Modelled from the spec: the class [User] of models.py, with the
    columns [id], [username], [email], [password], [role]. *)
Record t : Type := mk {
  id : value; username : value; email : value; password : value; role : value }.

(** The names [setattr] writes into the row. *)
Definition columns : list string := ["id"; "username"; "email"; "password"; "role"].

(** [setattr(user, attr, v)] when [attr] is a column: the column is
    overwritten.  [None] when [attr] is no column: what the assignment
    does then is not a matter of the row (see [setattr] below). *)
Definition set_column (attr : string) (v : value) (u : t) : option t :=
  if String.eqb attr "id" then Some (mk v (username u) (email u) (password u) (role u))
  else if String.eqb attr "username"
  then Some (mk (id u) v (email u) (password u) (role u))
  else if String.eqb attr "email"
  then Some (mk (id u) (username u) v (password u) (role u))
  else if String.eqb attr "password"
  then Some (mk (id u) (username u) (email u) v (role u))
  else if String.eqb attr "role"
  then Some (mk (id u) (username u) (email u) (password u) v)
  else None.

(** Modelled from the spec: the data model gives [role] the default
    "customer".  A column default is applied by the INSERT when the
    attribute is [None]. *)
Definition insert_defaults (u : t) : t :=
  match role u with
  | VNone => mk (id u) (username u) (email u) (password u) (VStr "customer")
  | _ => u
  end.
End User.

Module Order.
(** Modelled from the spec: the class [Order] of models.py, with the
    columns [id], [pickup_address], [delivery_address], [status], [user_id]. *)
Record t : Type := mk {
  id : value; pickup_address : value; delivery_address : value;
  status : value; user_id : value }.

(** The names [setattr] writes into the row. *)
Definition columns : list string :=
  ["id"; "pickup_address"; "delivery_address"; "status"; "user_id"].

(** [setattr(order, attr, v)] when [attr] is a column; [None] when it
    is not. *)
Definition set_column (attr : string) (v : value) (o : t) : option t :=
  if String.eqb attr "id"
  then Some (mk v (pickup_address o) (delivery_address o) (status o) (user_id o))
  else if String.eqb attr "pickup_address"
  then Some (mk (id o) v (delivery_address o) (status o) (user_id o))
  else if String.eqb attr "delivery_address"
  then Some (mk (id o) (pickup_address o) v (status o) (user_id o))
  else if String.eqb attr "status"
  then Some (mk (id o) (pickup_address o) (delivery_address o) v (user_id o))
  else if String.eqb attr "user_id"
  then Some (mk (id o) (pickup_address o) (delivery_address o) (status o) v)
  else None.
End Order.

Module Feedback.
(** Modelled from the spec: the class [Feedback] of models.py, with the
    columns [id], [rating], [comments], [user_id]. *)
Record t : Type := mk {
  id : value; rating : value; comments : value; user_id : value }.
End Feedback.

Module Parcel.
(** Modelled from the spec: the class [Parcel] of models.py, with the
    columns [id], [description], [weight], [dimensions], [order_id]. *)
Record t : Type := mk {
  id : value; description : value; weight : value;
  dimensions : value; order_id : value }.
End Parcel.

Module Profile.
(** Modelled from the spec: the class [Profile] of models.py, with the
    columns [id], [user_id], [bio], [profile_picture]. *)
Record t : Type := mk {
  id : value; user_id : value; bio : value; profile_picture : value }.
End Profile.

(** ** The database and the ORM session *)

(** One list of rows per table, in the order the engine returns them. *)
Record database : Type := mkDatabase {
  users : list User.t;
  orders : list Order.t;
  feedbacks : list Feedback.t;
  parcels : list Parcel.t;
  profiles : list Profile.t }.

(** What [db.Model] gives each model class: its primary key, its
    table, and the column defaults an INSERT applies (the spec's data
    model names one, the role of a user). *)
Class Model (R : Type) : Type := {
  pk : R → value;
  with_pk : value → R → R;
  table : database → list R;
  with_table : list R → database → database;
  insert_defaults : R → R }.

#[export] Instance User_Model : Model User.t := {|
  pk := User.id;
  with_pk v u := User.mk v (User.username u) (User.email u) (User.password u) (User.role u);
  table := users;
  with_table l d := mkDatabase l (orders d) (feedbacks d) (parcels d) (profiles d);
  insert_defaults := User.insert_defaults |}.

#[export] Instance Order_Model : Model Order.t := {|
  pk := Order.id;
  with_pk v o := Order.mk v (Order.pickup_address o) (Order.delivery_address o)
                   (Order.status o) (Order.user_id o);
  table := orders;
  with_table l d := mkDatabase (users d) l (feedbacks d) (parcels d) (profiles d);
  insert_defaults o := o |}.

#[export] Instance Feedback_Model : Model Feedback.t := {|
  pk := Feedback.id;
  with_pk v f := Feedback.mk v (Feedback.rating f) (Feedback.comments f) (Feedback.user_id f);
  table := feedbacks;
  with_table l d := mkDatabase (users d) (orders d) l (parcels d) (profiles d);
  insert_defaults f := f |}.

#[export] Instance Parcel_Model : Model Parcel.t := {|
  pk := Parcel.id;
  with_pk v p := Parcel.mk v (Parcel.description p) (Parcel.weight p)
                   (Parcel.dimensions p) (Parcel.order_id p);
  table := parcels;
  with_table l d := mkDatabase (users d) (orders d) (feedbacks d) l (profiles d);
  insert_defaults p := p |}.

#[export] Instance Profile_Model : Model Profile.t := {|
  pk := Profile.id;
  with_pk v p := Profile.mk v (Profile.user_id p) (Profile.bio p) (Profile.profile_picture p);
  table := profiles;
  with_table l d := mkDatabase (users d) (orders d) (feedbacks d) (parcels d) l;
  insert_defaults p := p |}.

(** [db.session]: the committed database and the state of the open
    transaction. *)
Record session : Type := mkSession {
  committed : database;
  working : database }.

(** A request starts with nothing pending. *)
Definition begin (d : database) : session := mkSession d d.

(** The row carries the integer primary key [i]. *)
Definition has_pk `{Model R} (i : Z) (r : R) : bool :=
  match pk r with
  | VInt z => Z.eqb z i
  | _ => false
  end.

(** ** The collaborators *)

(** The claims of a token: the payload [{'identity': ..., 'exp': ...}].
    [exp] is a [datetime], counted in microseconds since the epoch. *)
Record claims : Type := mkClaims { identity : value; exp : Z }.

(** [datetime.timedelta(days=d, hours=h)], in microseconds. *)
Definition timedelta (days hours : Z) : Z :=
  (days * 86400 + hours * 3600) * 1000000.

(** What [setattr(row, attr, v)] does when [attr] is no column.  It
    depends on Python's object model and on models.py: the name may be
    free, so that a plain attribute is set which neither the row nor
    the later calls see; the assignment may raise (as for
    [__class__]); or it may shadow what [to_dict()] needs (as for
    [to_dict] itself), so that the call after the commit raises. *)
Inductive attr_effect : Type :=
| Plain
| RaisesOnSet (e : exn)
| BreaksToDict (e : exn).

(** Everything app.py calls and does not define. *)
Class World : Type := {
  (** [db.session.commit()] flushing the transaction that turns the
      first database into the second: [None] when the engine accepts
      it, the exception it raises otherwise. *)
  flush : database → database → option exn;
  (** the primary key the engine gives a new row of a table whose keys
      in use are the given ones *)
  alloc_id : list value → value;
  (** [bcrypt.generate_password_hash(password).decode('utf-8')], from
      the salt drawn for this call; it raises on the passwords it
      refuses (an empty one, [None]) *)
  generate_password_hash : string → value → exn + string;
  (** [bcrypt.check_password_hash(pw_hash, password)]; it raises when
      the stored value is no hash of its kind or the password is no
      string *)
  check_password_hash : value → value → exn + bool;
  (** [jwt.encode(payload, key, algorithm=...)] *)
  jwt_encode : claims → string → string → exn + string;
  (** [str(v)] for a value that is not a string *)
  py_repr : value → string;
  (** [setattr] on a name that is no column *)
  setattr_other : string → value → attr_effect;
  (** [str(error)] for the NotFound the routing raises *)
  str_not_found : string;
  (** the page the framework itself sends for an error status *)
  default_page : Z → string;
  (** the file of the static folder under a path, if there is one *)
  static_file : list string → option string;
  (** [int(seg)] for a segment that is not all ASCII, when it is made
      of decimal digits of other scripts, which the converter's [\d+]
      matches as well *)
  int_of_unicode_digits : string → option Z;
  (** [to_dict()] of models.py *)
  user_to_dict : User.t → dict;
  order_to_dict : Order.t → dict;
  feedback_to_dict : Feedback.t → dict;
  parcel_to_dict : Parcel.t → dict;
  profile_to_dict : Profile.t → dict }.

(** [app.config['SECRET_KEY']] *)
Definition SECRET_KEY : string := "9d970c5fb1d04ea380828d9c491448ce".

(** The integers SQLite stores and binds: 64 bits, signed. *)
Definition sqlite_integer (i : Z) : bool :=
  ((-9223372036854775808 <=? i) && (i <=? 9223372036854775807))%Z.

(** ** Session operations *)

Section Session.
Context `{W : World} `{M : Model R}.

(** [Model.query.all()] *)
Definition query_all (s : session) : list R := table (working s).

(** [Model.query.get(id)]: the key is bound as a parameter of the
    SELECT; the database is SQLite ([SQLALCHEMY_DATABASE_URI]), whose
    integers have 64 bits, and binding a larger one raises. *)
Definition query_get (i : Z) (s : session) : exn + option R :=
  if sqlite_integer i
  then inr (List.find (has_pk i) (table (working s)))
  else inl (Exn "OverflowError" "Python int too large to convert to SQLite INTEGER").

(** [db.session.add(row)].  The row is built without a primary key;
    the engine assigns one, and applies the column defaults, when the
    row is flushed; nothing reads the row in between, so both are done
    here. *)
Definition session_add (r : R) (s : session) : R * session :=
  let rows := table (working s) in
  let r' := insert_defaults (with_pk (alloc_id (List.map pk rows)) r) in
  (r', mkSession (committed s) (with_table (rows ++ [r']) (working s))).

(** The attribute assignments [f] made on the object loaded under
    key [i]: flushed as an UPDATE of the rows with that key. *)
Definition session_update (i : Z) (f : R → R) (s : session) : session :=
  mkSession (committed s)
    (with_table (List.map (fun r => if has_pk i r then f r else r)
                   (table (working s))) (working s)).

(** [db.session.delete(row)] for the object loaded under key [i]:
    flushed as a DELETE of the rows with that key. *)
Definition session_delete (i : Z) (s : session) : session :=
  mkSession (committed s)
    (with_table (List.filter (fun r => negb (has_pk i r)) (table (working s)))
       (working s)).
End Session.

(** [db.session.commit()]: on success the pending state is the
    database; on failure the exception is raised and the pending state
    stays in the session. *)
Definition session_commit `{W : World} (s : session) : exn + session :=
  match flush (committed s) (working s) with
  | None => inr (mkSession (working s) (working s))
  | Some e => inl e
  end.

(** [db.session.rollback()] *)
Definition session_rollback (s : session) : session :=
  mkSession (committed s) (committed s).

(** The end of a request: the session is removed, what was not
    committed is lost. *)
Definition teardown (s : session) : database := committed s.

(** ** Requests, responses, argument parsers *)

Inductive http_method : Type := GET | POST | PUT | PATCH | DELETE.

(** A request: its method, the segments of its path, its JSON body
    ([request.json], an object) and [request.values]: the arguments of
    the query string and of the form, each name with the first value
    given for it. *)
Record request : Type := mkRequest {
  method : http_method;
  path : list string;
  json : gmap string value;
  values : gmap string string }.

(** A response: a JSON object and a status code. *)
Definition response : Type := dict * Z.

Definition status (r : response) : Z := snd r.

(** What running a handler gives: the response it returns, the
    [abort(code, message={field: help})] of the argument parser, or an
    exception nobody caught. *)
Inductive outcome : Type :=
| Return (r : response)
| Abort (code : Z) (field help : string)
| Raise (e : exn).

(** [@app.errorhandler(400)], [@app.errorhandler(404)],
    [@app.errorhandler(500)], each applied to [str(error)].  They serve
    the errors the application itself handles; the errors of a request
    to a resource of the API are answered by the API (see [respond]
    below). *)
Definition bad_request (details : string) : response :=
  ([("message", VStr "Bad Request"); ("details", VStr details)], 400).

Definition not_found (details : string) : response :=
  ([("message", VStr "Not Found"); ("details", VStr details)], 404).

Definition internal_error (details : string) : response :=
  ([("message", VStr "Internal Server Error"); ("details", VStr details)], 500).

(** One [add_argument(name, type=str, required=..., default=...,
    help=...)]. *)
Record Argument : Type := mkArgument {
  name : string;
  required : bool;
  default_value : value;
  help : string }.

Definition register_args : list Argument :=
  [ mkArgument "email" true VNone "Email address is required";
    mkArgument "password" true VNone "Password is required";
    mkArgument "username" true VNone "Username is required";
    mkArgument "role" false (VStr "customer") "Role of the user" ].

Definition login_args : list Argument :=
  [ mkArgument "email" true VNone "Email address is required";
    mkArgument "password" true VNone "Password is required" ].

Section Parser.
Context `{W : World}.

(** [type=str] applied to a value found in the request. *)
Definition py_str (v : value) : string :=
  match v with
  | VStr s => s
  | _ => py_repr v
  end.

(** The conversion of a value found in the request: [None] is not
    cast, anything else goes through [type]. *)
Definition convert (v : value) : value :=
  match v with
  | VNone => VNone
  | _ => VStr (py_str v)
  end.

(** Where an argument is looked for (its locations are the default
    ones, [json] then [values]): the two are merged into one
    multi-dictionary, in which a JSON list counts as that many values
    of the name, an empty one as none; the argument is the first value
    under its name. *)
Definition source (req : request) (k : string) : list value :=
  match json req !! k with
  | Some (VList l) => l
  | Some v => [v]
  | None => []
  end ++
  match values req !! k with
  | Some x => [VStr x]
  | None => []
  end.

Definition argument (req : request) (k : string) : option value :=
  head (source req k).

(** One argument: a value found is converted; a missing required
    argument aborts, with its name and its help text; a missing
    optional one takes its default. *)
Definition parse_argument (a : Argument) (req : request) : string * string + value :=
  match argument req (name a) with
  | Some v => inr (convert v)
  | None => if required a then inl (name a, help a) else inr (default_value a)
  end.

(** [parser.parse_args()]: the first argument that fails aborts the
    request; otherwise every declared argument has an entry. *)
Fixpoint parse_args (p : list Argument) (req : request)
  : string * string + gmap string value :=
  match p with
  | [] => inr ∅
  | a :: p' =>
      match parse_argument a req with
      | inl e => inl e
      | inr v =>
          match parse_args p' req with
          | inl e => inl e
          | inr data => inr (<[name a := v]> data)
          end
      end
  end.

(** What [register_args] gives for the optional role. *)
Definition parsed_role (req : request) : value :=
  match argument req "role" with
  | Some r => convert r
  | None => VStr "customer"
  end.
End Parser.

(** [column == v] as [filter_by] compiles it: equality of scalars,
    IS NULL for [None]. *)
Definition column_eq (col v : value) : bool :=
  match v, col with
  | VNone, VNone => true
  | VBool a, VBool b => Bool.eqb a b
  | VInt a, VInt b => Z.eqb a b
  | VStr a, VStr b => String.eqb a b
  | _, _ => false
  end.

(** [{"msg": text}] and [{"message": text}] *)
Definition msg (text : string) : dict := [("msg", VStr text)].
Definition message (text : string) : dict := [("message", VStr text)].

(** [{"count": len(rows), key: rows}] *)
Definition listing (key : string) (rows : list dict) : dict :=
  [("count", VInt (Z.of_nat (length rows))); (key, VList (List.map VDict rows))].

(** ** The resources *)

(** An object under the loop of a PATCH: its row, the exception an
    assignment has raised (the loop has then stopped), and the
    exception [to_dict()] will raise once an assignment has shadowed
    what it needs. *)
Record patched (R : Type) : Type := mkPatched {
  obj : R;
  raised : option exn;
  to_dict_error : option exn }.
Arguments mkPatched {R}.
Arguments obj {R}.
Arguments raised {R}.
Arguments to_dict_error {R}.

Section Handlers.
Context `{W : World}.

(** [class Signup].  The user [Signup.post] builds from the parsed
    arguments and the hash of the password: *)
Definition Signup_new_user (hashed_password : string) (data : gmap string value)
  : User.t :=
  let role := get_default data "role" (VStr "customer") in
  User.mk VNone (get data "username") (get data "email") (VStr hashed_password) role.

(** [Signup.post].  The password is hashed before the [try]: when the
    hasher raises, nobody catches it and nothing is added. *)
Definition Signup_post (salt : string) (req : request) (s : session) : outcome * session :=
  match parse_args register_args req with
  | inl (field, help) => (Abort 400 field help, s)
  | inr data =>
      match generate_password_hash salt (get data "password") with
      | inl e => (Raise e, s)
      | inr hashed_password =>
          let '(_, s1) := session_add (Signup_new_user hashed_password data) s in
          match session_commit s1 with
          | inr s2 => (Return (msg "User created successfully", 201), s2)
          | inl e =>
              (Return (msg "An error occurred while creating the user", 500),
               session_rollback s1)
          end
      end
  end.

(** [User.query.filter_by(email=email).first()] *)
Definition first_by_email (email : value) (s : session) : option User.t :=
  List.find (fun u => column_eq (User.email u) email) (query_all s).

(** [class Login].  [now1] and [now2] are what the two calls of
    [datetime.datetime.utcnow()] return.  The password is checked
    outside the [try]: when the check raises, nobody catches it. *)
Definition Login_post (now1 now2 : Z) (req : request) (s : session) : outcome * session :=
  match parse_args login_args req with
  | inl (field, help) => (Abort 400 field help, s)
  | inr data =>
      let email := get data "email" in
      let password := get data "password" in
      match first_by_email email s with
      | None => (Return (msg "User does not exist in our database", 404), s)
      | Some user =>
          match check_password_hash (User.password user) password with
          | inl e => (Raise e, s)
          | inr false => (Return (msg "Password is incorrect!", 401), s)
          | inr true =>
              match jwt_encode (mkClaims (User.id user) (now1 + timedelta 0 1))
                      SECRET_KEY "HS256" with
              | inl e =>
                  (Return (msg "An error occurred while generating tokens", 500), s)
              | inr token =>
                  match jwt_encode (mkClaims (User.id user) (now2 + timedelta 30 0))
                          SECRET_KEY "HS256" with
                  | inl e =>
                      (Return (msg "An error occurred while generating tokens", 500), s)
                  | inr refresh_token =>
                      (Return ([("token", VStr token);
                                ("refresh_token", VStr refresh_token)], 200), s)
                  end
              end
          end
      end
  end.

(** [class Users] *)
Definition Users_get (s : session) : outcome * session :=
  let users_list := List.map user_to_dict (query_all s) in
  (Return (listing "users" users_list, 200), s).

(** The user [Users.post] builds from the JSON body: *)
Definition Users_new_user (req : request) : User.t :=
  User.mk VNone (get (json req) "username") (get (json req) "email")
    (get (json req) "password") (get (json req) "role").

(** [Users.post]: the row is added and committed; a commit that raises
    is not caught. *)
Definition Users_post (req : request) (s : session) : outcome * session :=
  let '(new_user, s1) := session_add (Users_new_user req) s in
  match session_commit s1 with
  | inl e => (Raise e, s1)
  | inr s2 => (Return (user_to_dict new_user, 201), s2)
  end.

(** [setattr(row, attr, v)]: a column is overwritten; for any other
    name the world says what the assignment does. *)
Definition setattr {R : Type} (set_column : string → value → R → option R)
    (attr : string) (v : value) (o : patched R) : patched R :=
  match raised o with
  | Some _ => o
  | None =>
      match set_column attr v (obj o) with
      | Some r => mkPatched r None (to_dict_error o)
      | None =>
          match setattr_other attr v with
          | Plain => o
          | RaisesOnSet e => mkPatched (obj o) (Some e) (to_dict_error o)
          | BreaksToDict e =>
              mkPatched (obj o) None
                (match to_dict_error o with Some e' => Some e' | None => Some e end)
          end
      end
  end.

(** [for attr in request.json: setattr(row, attr, request.json.get(attr))] *)
Definition apply_json {R : Type} (set_column : string → value → R → option R)
    (body : gmap string value) (row : R) : patched R :=
  map_fold (setattr set_column) (mkPatched row None None) body.

(** What, beyond the row, the assignment of a key of the body does,
    for a model with the given columns: nothing for a column. *)
Definition effect_of (columns : list string) (attr : string) (v : value) : attr_effect :=
  if existsb (String.eqb attr) columns then Plain else setattr_other attr v.

(** A body none of whose keys does anything beyond the row. *)
Definition plain_body (columns : list string) (body : gmap string value) : bool :=
  map_fold (fun attr v b =>
              b && match effect_of columns attr v with
                   | Plain => true
                   | _ => false
                   end) true body.


(** [class UserByID] *)
Definition UserByID_get (id : Z) (s : session) : outcome * session :=
  match query_get id s with
  | inl e => (Raise e, s)
  | inr None => (Return (message "User not found", 404), s)
  | inr (Some user) => (Return (user_to_dict user, 200), s)
  end.

(** [UserByID.patch]: every key of the body is assigned to the user
    loaded under [id].  An assignment that raises ends the request
    before the commit, the assignments made so far pending in the
    session; otherwise the columns assigned are committed, and only
    then is [to_dict()] called. *)
Definition UserByID_patch (id : Z) (req : request) (s : session) : outcome * session :=
  match query_get id s with
  | inl e => (Raise e, s)
  | inr None => (Return (message "User not found", 404), s)
  | inr (Some user) =>
      let patched_user := apply_json User.set_column (json req) user in
      let s1 :=
        session_update id (fun u => obj (apply_json User.set_column (json req) u)) s in
      match raised patched_user with
      | Some e => (Raise e, s1)
      | None =>
          match session_commit s1 with
          | inl e => (Raise e, s1)
          | inr s2 =>
              match to_dict_error patched_user with
              | Some e => (Raise e, s2)
              | None => (Return (user_to_dict (obj patched_user), 200), s2)
              end
          end
      end
  end.

(** [UserByID.delete] *)
Definition UserByID_delete (id : Z) (s : session) : outcome * session :=
  match query_get (R := User.t) id s with
  | inl e => (Raise e, s)
  | inr None => (Return (message "User not found", 404), s)
  | inr (Some user) =>
      let s1 := session_delete (R := User.t) id s in
      match session_commit s1 with
      | inl e => (Raise e, s1)
      | inr s2 => (Return (message "User deleted", 200), s2)
      end
  end.

(** [class Orders] *)
Definition Orders_get (s : session) : outcome * session :=
  let orders_list := List.map order_to_dict (query_all s) in
  (Return (listing "orders" orders_list, 200), s).

(** [Orders.post]: the row is built from the JSON body, added and
    committed; a commit that raises is not caught. *)
Definition Orders_post (req : request) (s : session) : outcome * session :=
  let new_order :=
    Order.mk VNone (get (json req) "pickup_address") (get (json req) "delivery_address")
      (get (json req) "status") (get (json req) "user_id") in
  let '(new_order, s1) := session_add new_order s in
  match session_commit s1 with
  | inl e => (Raise e, s1)
  | inr s2 => (Return (order_to_dict new_order, 201), s2)
  end.

(** [class OrderByID] *)
Definition OrderByID_get (id : Z) (s : session) : outcome * session :=
  match query_get id s with
  | inl e => (Raise e, s)
  | inr None => (Return (message "Order not found", 404), s)
  | inr (Some order) => (Return (order_to_dict order, 200), s)
  end.

(** [OrderByID.patch] *)
Definition OrderByID_patch (id : Z) (req : request) (s : session) : outcome * session :=
  match query_get id s with
  | inl e => (Raise e, s)
  | inr None => (Return (message "Order not found", 404), s)
  | inr (Some order) =>
      let patched_order := apply_json Order.set_column (json req) order in
      let s1 :=
        session_update id (fun o => obj (apply_json Order.set_column (json req) o)) s in
      match raised patched_order with
      | Some e => (Raise e, s1)
      | None =>
          match session_commit s1 with
          | inl e => (Raise e, s1)
          | inr s2 =>
              match to_dict_error patched_order with
              | Some e => (Raise e, s2)
              | None => (Return (order_to_dict (obj patched_order), 200), s2)
              end
          end
      end
  end.

(** [OrderByID.delete] *)
Definition OrderByID_delete (id : Z) (s : session) : outcome * session :=
  match query_get (R := Order.t) id s with
  | inl e => (Raise e, s)
  | inr None => (Return (message "Order not found", 404), s)
  | inr (Some order) =>
      let s1 := session_delete (R := Order.t) id s in
      match session_commit s1 with
      | inl e => (Raise e, s1)
      | inr s2 => (Return (message "Order deleted", 200), s2)
      end
  end.

(** [class FeedbackResource] *)
Definition FeedbackResource_get (s : session) : outcome * session :=
  let feedbacks_list := List.map feedback_to_dict (query_all s) in
  (Return (listing "feedbacks" feedbacks_list, 200), s).

(** [FeedbackResource.post]: the row is built from the JSON body, added and
    committed; a commit that raises is not caught. *)
Definition FeedbackResource_post (req : request) (s : session) : outcome * session :=
  let new_feedback :=
    Feedback.mk VNone (get (json req) "rating") (get (json req) "comments")
      (get (json req) "user_id") in
  let '(new_feedback, s1) := session_add new_feedback s in
  match session_commit s1 with
  | inl e => (Raise e, s1)
  | inr s2 => (Return (feedback_to_dict new_feedback, 201), s2)
  end.

(** [class Parcels] *)
Definition Parcels_get (s : session) : outcome * session :=
  let parcels_list := List.map parcel_to_dict (query_all s) in
  (Return (listing "parcels" parcels_list, 200), s).

(** [Parcels.post]: the row is built from the JSON body, added and
    committed; a commit that raises is not caught. *)
Definition Parcels_post (req : request) (s : session) : outcome * session :=
  let new_parcel :=
    Parcel.mk VNone (get (json req) "description") (get (json req) "weight")
      (get (json req) "dimensions") (get (json req) "order_id") in
  let '(new_parcel, s1) := session_add new_parcel s in
  match session_commit s1 with
  | inl e => (Raise e, s1)
  | inr s2 => (Return (parcel_to_dict new_parcel, 201), s2)
  end.

(** [class Profiles] *)
Definition Profiles_get (s : session) : outcome * session :=
  let profiles_list := List.map profile_to_dict (query_all s) in
  (Return (listing "profiles" profiles_list, 200), s).

(** [Profiles.post]: the row is built from the JSON body, added and
    committed; a commit that raises is not caught. *)
Definition Profiles_post (req : request) (s : session) : outcome * session :=
  let new_profile :=
    Profile.mk VNone (get (json req) "user_id") (get (json req) "bio")
      (get (json req) "profile_picture") in
  let '(new_profile, s1) := session_add new_profile s in
  match session_commit s1 with
  | inl e => (Raise e, s1)
  | inr s2 => (Return (profile_to_dict new_profile, 201), s2)
  end.
End Handlers.

(** ** Routing *)

(** The resource classes registered with the API. *)
Inductive resource : Type :=
| Signup | Login | Users | UserByID | Orders | OrderByID
| FeedbackResource | Parcels | Profiles.

(** A segment of a URL rule: fixed text, or the converter [<int:id>]. *)
Inductive rule_part : Type :=
| Static (s : string)
| IntConverter.

(** The [api.add_resource] calls, in their order. *)
Definition resources : list (resource * list rule_part) :=
  [ (Signup, [Static "signup"]);
    (Login, [Static "login"]);
    (Users, [Static "users"]);
    (UserByID, [Static "users"; IntConverter]);
    (Orders, [Static "orders"]);
    (OrderByID, [Static "orders"; IntConverter]);
    (FeedbackResource, [Static "feedback"]);
    (Parcels, [Static "parcels"]);
    (Profiles, [Static "profiles"]) ].

(** An ASCII decimal digit. *)
Definition is_digit (c : ascii) : bool :=
  let n := Z.of_N (N_of_ascii c) in ((48 <=? n) && (n <=? 57))%Z.

(** The number a string of digits writes, after the digits already
    read as [acc]; [None] when a character is not a digit. *)
Fixpoint digits_value (acc : Z) (s : string) : option Z :=
  match s with
  | EmptyString => Some acc
  | String c s' =>
      if is_digit c
      then digits_value (10 * acc + (Z.of_N (N_of_ascii c) - 48)) s'
      else None
  end.

(** A character of the ASCII range. *)
Definition is_ascii (c : ascii) : bool := (N_of_ascii c <? 128)%N.

Section Rules.
Context `{W : World}.

(** The [int] converter: one or more decimal digits, and the number
    they write.  For a segment of ASCII characters the digits are 0 to
    9; for any other the world says whether it is a number. *)
Definition int_converter (seg : string) : option Z :=
  if forallb is_ascii (list_ascii_of_string seg)
  then match seg with
       | EmptyString => None
       | _ => digits_value 0 seg
       end
  else int_of_unicode_digits seg.

(** A rule against the segments of a path; [arg] is the [id] captured
    so far. *)
Fixpoint match_rule (rule : list rule_part) (p : list string) (arg : option Z)
  : option (option Z) :=
  match rule, p with
  | [], [] => Some arg
  | Static s :: rule', seg :: p' =>
      if String.eqb s seg then match_rule rule' p' arg else None
  | IntConverter :: rule', seg :: p' =>
      match int_converter seg with
      | Some z => match_rule rule' p' (Some z)
      | None => None
      end
  | _, _ => None
  end.

(** The first registered resource whose rule matches the path. *)
Fixpoint find_rule (rs : list (resource * list rule_part)) (p : list string)
  : option (resource * option Z) :=
  match rs with
  | [] => None
  | (r, rule) :: rs' =>
      match match_rule rule p None with
      | Some arg => Some (r, arg)
      | None => find_rule rs' p
      end
  end.

End Rules.

(** What a request takes from its environment: the salt the hasher
    draws and the two readings of the clock. *)
Record environ : Type := mkEnviron { salt : string; utcnow1 : Z; utcnow2 : Z }.

Section Dispatch.
Context `{W : World}.

(** A method of a resource, once the [id] of the rule is bound. *)
Definition handler : Type := environ → request → session → outcome * session.

(** The methods each resource class defines. *)
Definition view (r : resource) (arg : option Z) (m : http_method) : option handler :=
  match r, arg, m with
  | Signup, None, POST => Some (fun e req => Signup_post (salt e) req)
  | Login, None, POST => Some (fun e req => Login_post (utcnow1 e) (utcnow2 e) req)
  | Users, None, GET => Some (fun _ _ => Users_get)
  | Users, None, POST => Some (fun _ req => Users_post req)
  | UserByID, Some id, GET => Some (fun _ _ => UserByID_get id)
  | UserByID, Some id, PATCH => Some (fun _ req => UserByID_patch id req)
  | UserByID, Some id, DELETE => Some (fun _ _ => UserByID_delete id)
  | Orders, None, GET => Some (fun _ _ => Orders_get)
  | Orders, None, POST => Some (fun _ req => Orders_post req)
  | OrderByID, Some id, GET => Some (fun _ _ => OrderByID_get id)
  | OrderByID, Some id, PATCH => Some (fun _ req => OrderByID_patch id req)
  | OrderByID, Some id, DELETE => Some (fun _ _ => OrderByID_delete id)
  | FeedbackResource, None, GET => Some (fun _ _ => FeedbackResource_get)
  | FeedbackResource, None, POST => Some (fun _ req => FeedbackResource_post req)
  | Parcels, None, GET => Some (fun _ _ => Parcels_get)
  | Parcels, None, POST => Some (fun _ req => Parcels_post req)
  | Profiles, None, GET => Some (fun _ _ => Profiles_get)
  | Profiles, None, POST => Some (fun _ req => Profiles_post req)
  | _, _, _ => None
  end.

(** What the API answers when a handler of one of its resources lets
    an exception escape: the application's own handler for 500 is not
    reached. *)
Definition server_error : response :=
  (message "Internal Server Error", 500).

(** The response the API sends for an outcome: the handler's own
    response; for an abort of the argument parser, the help text
    under the name of the argument; for an exception nobody caught,
    [server_error]. *)
Definition respond (o : outcome) : response :=
  match o with
  | Return r => r
  | Abort code field help => ([("message", VDict [(field, VStr help)])], code)
  | Raise _ => server_error
  end.

(** One request against the database: the handler runs in a fresh
    session, which is removed afterwards. *)
Definition run (h : session → outcome * session) (db : database) : response * database :=
  let '(o, s) := h (begin db) in (respond o, teardown s).

(** What the application sends back: a JSON body with its status, a
    page of HTML with its status, or a file (status 200). *)
Inductive reply : Type :=
| Json (r : response)
| Page (text : string) (code : Z)
| File (content : string).

Definition reply_status (r : reply) : Z :=
  match r with
  | Json r => status r
  | Page _ code => code
  | File _ => 200
  end.

(** [@app.route('/')]: [index] *)
Definition index : reply :=
  Page "<h1>Welcome to Sendit App</h1>" 200.

(** The two routes that are not the API's: [/], which [index] serves,
    and [/static/<path:filename>], which [Flask(__name__)] adds.  A
    static file that does not exist raises NotFound. *)
Definition app_route (p : list string) : option (option reply) :=
  match p with
  | [] => Some (Some index)
  | a :: seg :: rest =>
      if String.eqb a "static" && negb (String.eqb seg "")
      then Some (option_map File (static_file (seg :: rest)))
      else None
  | _ => None
  end.

(** A request to the application.  The routes of the application
    itself answer GET (HEAD and OPTIONS, which the framework adds, are
    not among the methods modelled); any other method is answered by
    the framework's page for 405.  Otherwise the rule is looked up
    among the API's, then the method: a method the resource does not
    define is answered 405 by the API.  A path no rule matches, like a
    static file that does not exist, is answered by [not_found]. *)
Definition dispatch (e : environ) (req : request) (db : database) : reply * database :=
  match app_route (path req) with
  | Some served =>
      match method req, served with
      | GET, Some r => (r, db)
      | GET, None => (Json (not_found str_not_found), db)
      | _, _ => (Page (default_page 405) 405, db)
      end
  | None =>
      match find_rule resources (path req) with
      | None => (Json (not_found str_not_found), db)
      | Some (r, arg) =>
          match view r arg (method req) with
          | None =>
              (Json ([("message", VStr "The method is not allowed for the requested URL.")],
                     405), db)
          | Some h => let '(r, db') := run (h e req) db in (Json r, db')
          end
      end
  end.

(** The methods of a by-id resource. *)
Definition by_id_method (m : http_method) : bool :=
  match m with
  | GET | PATCH | DELETE => true
  | _ => false
  end.

(** The application answers [m] on [/prefix/<int:id>]: a registered
    rule matches the path and its resource defines the method. *)
Definition by_id_endpoint (prefix : string) (m : http_method) : Prop :=
  ∀ seg id, int_converter seg = Some id →
    ∃ r h, find_rule resources [prefix; seg] = Some (r, Some id)
           ∧ view r (Some id) m = Some h.
End Dispatch.

(** The value under [k] in a JSON object. *)
Definition field (k : string) (d : dict) : option value :=
  snd <$> List.find (fun kv => String.eqb (fst kv) k) d.

(** ** A world to run the handlers in *)

Module Sample.
(** The keys in use that are integers. *)
Fixpoint max_key (keys : list value) : Z :=
  match keys with
  | [] => 0
  | VInt z :: keys' => Z.max z (max_key keys')
  | _ :: keys' => max_key keys'
  end.

Definition text (v : value) : string :=
  match v with
  | VStr s => s
  | _ => "?"
  end.

Definition emails (db : database) : list string :=
  List.map (fun u => text (User.email u)) (users db).

Fixpoint distinct (l : list string) : bool :=
  match l with
  | [] => true
  | x :: l' => negb (existsb (String.eqb x) l') && distinct l'
  end.

(** An engine that refuses two users with one email, a hasher that
    refuses an empty or missing password, wraps any other and checks
    only what it has wrapped, an encoder that prints the claims, and
    an object model in which
    assigning [to_dict] shadows the method and assigning [__class__]
    is refused. *)
#[local] Instance world : World := {|
  flush _ new :=
    if distinct (emails new) then None
    else Some (Exn "IntegrityError" "UNIQUE constraint failed: users.email");
  alloc_id keys := VInt (1 + max_key keys);
  generate_password_hash salt password :=
    match password with
    | VNone | VStr "" => inl (Exn "ValueError" "Password must be non-empty.")
    | _ => inr ("$2b$" ++ salt ++ "$" ++ text password)
    end;
  check_password_hash pw_hash password :=
    match pw_hash, password with
    | VStr h, VStr p =>
        if String.prefix "$2b$" h
        then inr (String.eqb (substring 9 (String.length h) h) p)
        else inl (Exn "ValueError" "Invalid salt")
    | _, _ => inl (Exn "TypeError" "Unicode-objects must be encoded before hashing")
    end;
  jwt_encode c key alg :=
    match identity c with
    | VInt z =>
        inr (alg ++ "." ++ pretty z ++ "." ++ pretty (exp c / 1000000) ++ "." ++ key)
    | _ => inl (Exn "TypeError" "Object is not JSON serializable")
    end;
  py_repr _ := "?";
  setattr_other attr _ :=
    if String.eqb attr "to_dict"
    then BreaksToDict (Exn "TypeError" "'int' object is not callable")
    else if String.eqb attr "__class__"
    then RaisesOnSet (Exn "TypeError" "__class__ must be set to a class")
    else Plain;
  str_not_found :=
    "404 Not Found: The requested URL was not found on the server. If you entered the URL manually please check your spelling and try again.";
  default_page code := "<!doctype html><title>" ++ pretty code ++ "</title>";
  static_file _ := None;
  int_of_unicode_digits _ := None;
  user_to_dict u :=
    [("id", User.id u); ("username", User.username u); ("email", User.email u);
     ("role", User.role u)];
  order_to_dict o :=
    [("id", Order.id o); ("pickup_address", Order.pickup_address o);
     ("delivery_address", Order.delivery_address o); ("status", Order.status o);
     ("user_id", Order.user_id o)];
  feedback_to_dict f :=
    [("id", Feedback.id f); ("rating", Feedback.rating f);
     ("comments", Feedback.comments f); ("user_id", Feedback.user_id f)];
  parcel_to_dict p :=
    [("id", Parcel.id p); ("description", Parcel.description p);
     ("weight", Parcel.weight p); ("dimensions", Parcel.dimensions p);
     ("order_id", Parcel.order_id p)];
  profile_to_dict p :=
    [("id", Profile.id p); ("user_id", Profile.user_id p); ("bio", Profile.bio p);
     ("profile_picture", Profile.profile_picture p)] |}.

Definition empty : database := mkDatabase [] [] [] [] [].

Definition alice : User.t :=
  User.mk (VInt 1) (VStr "alice") (VStr "alice@sendit.test")
    (VStr "$2b$salt$wonderland") (VStr "customer").

Definition parcel_order : Order.t :=
  Order.mk (VInt 7) (VStr "12 Quay St") (VStr "3 Hill Rd") (VStr "pending") (VInt 1).

Definition complaint : Feedback.t :=
  Feedback.mk (VInt 1) (VInt 2) (VStr "late") (VInt 1).

Definition db1 : database := mkDatabase [alice] [parcel_order] [complaint] [] [].

Definition env : environ := mkEnviron "salt" 1700000000000000 1700000000000250.

Definition body (kvs : list (string * value)) : gmap string value := list_to_map kvs.

(** Requests and rows the examples use. *)
Definition login_request (e p : string) : request :=
  mkRequest POST ["login"] (body [("email", VStr e); ("password", VStr p)]) ∅.

Definition signup_request (e p n : string) : request :=
  mkRequest POST ["signup"]
    (body [("email", VStr e); ("password", VStr p); ("username", VStr n)]) ∅.

Definition create_user_request (e p n : string) : request :=
  mkRequest POST ["users"]
    (body [("email", VStr e); ("password", VStr p); ("username", VStr n)]) ∅.

Definition bob (password role : value) : User.t :=
  User.mk (VInt 2) (VStr "bob") (VStr "bob@sendit.test") password role.

Definition with_users (l : list User.t) : database :=
  mkDatabase l [parcel_order] [complaint] [] [].
End Sample.

(** ** Proof steps shared by the properties *)

(** One case of a [setattr] chain: the key [i] is the column [col]. *)
Ltac case_attr i col :=
  destruct (String.eqb_spec i col) as [-> | ?];
  [intros _; cbn [obj raised to_dict_error]; unfold get_default;
   rewrite lookup_insert_eq; rewrite !lookup_insert_ne by done; reflexivity |].

(** Every handler and session operation, unfolded. *)
Ltac unfold_handlers :=
  unfold run, Signup_post, Login_post, Users_get, Users_post, UserByID_get, UserByID_patch,
    UserByID_delete, Orders_get, Orders_post, OrderByID_get, OrderByID_patch,
    OrderByID_delete, FeedbackResource_get, FeedbackResource_post, Parcels_get,
    Parcels_post, Profiles_get, Profiles_post, session_commit, session_add,
    session_update, session_delete, session_rollback, teardown, begin.

(** More rows and databases for the examples. *)
Module Cases.
(** A user whose key is not an integer (a PATCH can write one): the
    sample encoder cannot serialise it. *)
Definition eve : User.t :=
  User.mk (VStr "n/a") (VStr "eve") (VStr "eve@sendit.test") (VStr "$2b$salt$secret")
    (VStr "customer").

Definition only_eve : database := mkDatabase [eve] [] [] [] [].

Definition box : Parcel.t :=
  Parcel.mk (VInt 1) (VStr "books") (VInt 3) (VStr "30x20x10") (VInt 7).

Definition with_parcel : database :=
  mkDatabase [Sample.alice] [Sample.parcel_order] [] [box] [].

Definition patch_request (path : list string) (kvs : list (string * value)) : request :=
  mkRequest PATCH path (Sample.body kvs) ∅.

Definition new_order_request : request :=
  mkRequest POST ["orders"]
    (Sample.body [("pickup_address", VStr "1 Dock Rd"); ("user_id", VInt 1)]) ∅.

(** A login that gives its email in the query string and a list of
    passwords in the body. *)
Definition mixed_login_request : request :=
  mkRequest POST ["login"]
    (Sample.body [("password", VList [VStr "wonderland"; VStr "x"])])
    {["email" := "alice@sendit.test"]}.

(** The first id SQLite cannot hold, as a segment and as a number. *)
Definition huge : string := "9223372036854775808".
Definition huge_id : Z := 9223372036854775808.
End Cases.


(** * Properties *)

Section ParserFacts.
Context `{W : World}.

(** What [parse_args] gives when every required argument is in the
    request. *)
Lemma parse_login_args (req : request) (e p : value) :
  argument req "email" = Some e → argument req "password" = Some p →
  parse_args login_args req
  = inr (<["email" := convert e]> (<["password" := convert p]> ∅)).
Proof.
  intros He Hp. unfold login_args. cbn [parse_args]. unfold parse_argument.
  cbn [name required default_value help]. rewrite He, Hp. reflexivity.
Qed.

Lemma parse_register_args (req : request) (e p n : value) :
  argument req "email" = Some e → argument req "password" = Some p →
  argument req "username" = Some n →
  parse_args register_args req
  = inr (<["email" := convert e]> (<["password" := convert p]>
          (<["username" := convert n]> (<["role" := parsed_role req]> ∅)))).
Proof.
  intros He Hp Hn. unfold register_args, parsed_role. cbn [parse_args].
  unfold parse_argument. cbn [name required default_value help]. rewrite He, Hp, Hn.
  destruct (argument req "role"); reflexivity.
Qed.

(** [get] on a dictionary built by insertions. *)
Lemma get_insert_eq (d : gmap string value) k v : get (<[k := v]> d) k = v.
Proof. unfold get. by rewrite lookup_insert_eq. Qed.

Lemma get_insert_ne (d : gmap string value) k k' v :
  k ≠ k' → get (<[k := v]> d) k' = get d k'.
Proof. intros. unfold get. by rewrite lookup_insert_ne. Qed.
End ParserFacts.

(** C1. A login whose email matches no user is answered 404; a login
    whose email matches a user but whose password does not verify
    against the stored hash is answered 401; neither response carries a
    token, and the session is left as it was.  The email and the
    password are the arguments the parser finds in the request. *)
Theorem Login_rejects `{W : World} (now1 now2 : Z) (req : request) (s : session)
    (e p : value) :
  argument req "email" = Some e →
  argument req "password" = Some p →
  (first_by_email (convert e) s = None →
   ∃ body, Login_post now1 now2 req s = (Return (body, 404), s)
           ∧ body = msg "User does not exist in our database"
           ∧ field "token" body = None ∧ field "refresh_token" body = None)
  ∧ (∀ user, first_by_email (convert e) s = Some user →
       check_password_hash (User.password user) (convert p) = inr false →
       ∃ body, Login_post now1 now2 req s = (Return (body, 401), s)
               ∧ body = msg "Password is incorrect!"
               ∧ field "token" body = None ∧ field "refresh_token" body = None).
Proof.
  intros He Hp. unfold Login_post.
  rewrite (parse_login_args _ _ _ He Hp).
  rewrite get_insert_eq, get_insert_ne, get_insert_eq by done.
  split.
  - intros ->. eexists. repeat split; reflexivity.
  - intros user -> ->. simpl. eexists. repeat split; reflexivity.
Qed.

(** C1 on the sample database: an unknown email, then a wrong
    password for alice. *)
Lemma Login_rejects_witness :
  (first_by_email (convert (W := Sample.world) (VStr "bob@sendit.test")) (begin Sample.db1) = None
   ∧ ∃ body,
      Login_post (W := Sample.world) 5 6 (Sample.login_request "bob@sendit.test" "x") (begin Sample.db1)
      = (Return (body, 404), begin Sample.db1)
      ∧ body = msg "User does not exist in our database"
      ∧ field "token" body = None ∧ field "refresh_token" body = None)
  ∧ (first_by_email (convert (W := Sample.world) (VStr "alice@sendit.test")) (begin Sample.db1)
     = Some Sample.alice
     ∧ ∃ body,
        Login_post (W := Sample.world) 5 6 (Sample.login_request "alice@sendit.test" "x") (begin Sample.db1)
        = (Return (body, 401), begin Sample.db1)
        ∧ body = msg "Password is incorrect!"
        ∧ field "token" body = None ∧ field "refresh_token" body = None).
Proof.
  split; (split; [reflexivity |]).
  - apply (proj1 (Login_rejects (W := Sample.world) 5 6
                    (Sample.login_request "bob@sendit.test" "x") (begin Sample.db1)
                    (VStr "bob@sendit.test") (VStr "x") eq_refl eq_refl)).
    reflexivity.
  - apply (proj2 (Login_rejects (W := Sample.world) 5 6
                    (Sample.login_request "alice@sendit.test" "x") (begin Sample.db1)
                    (VStr "alice@sendit.test") (VStr "x") eq_refl eq_refl) Sample.alice);
      reflexivity.
Defined.

(** What [find] returns satisfies the test. *)
Lemma find_true {A : Type} (f : A → bool) (l : list A) (x : A) :
  List.find f l = Some x → f x = true.
Proof. intros H. apply List.find_some in H. tauto. Qed.

(** C2. A login whose email matches a user and whose password verifies
    is answered 200 with two tokens, each the encoding under the static
    secret [SECRET_KEY] and HS256 of claims whose [identity] is the
    id of the matched user.  The access token expires one hour after
    the first reading of the clock, the refresh token thirty days after
    the second, so the access token expires strictly first.  (The
    encoder is taken to succeed on both payloads, its failure being
    answered 500, and the second reading of the clock not to be 29
    days and 23 hours or more before the first: in particular the
    clock may stand still or run forwards between the two.) *)
Theorem Login_issues_tokens `{W : World} (now1 now2 : Z) (req : request) (s : session)
    (e p : value) (user : User.t) (token refresh_token : string) :
  argument req "email" = Some e →
  argument req "password" = Some p →
  first_by_email (convert e) s = Some user →
  check_password_hash (User.password user) (convert p) = inr true →
  (now1 < now2 + timedelta 29 23)%Z →
  let access := mkClaims (User.id user) (now1 + timedelta 0 1) in
  let refresh := mkClaims (User.id user) (now2 + timedelta 30 0) in
  jwt_encode access SECRET_KEY "HS256" = inr token →
  jwt_encode refresh SECRET_KEY "HS256" = inr refresh_token →
  Login_post now1 now2 req s
  = (Return ([("token", VStr token); ("refresh_token", VStr refresh_token)], 200), s)
  ∧ column_eq (User.email user) (convert e) = true
  ∧ identity access = User.id user ∧ identity refresh = User.id user
  ∧ exp access = now1 + 3600 * 1000000
  ∧ exp refresh = now2 + 30 * 86400 * 1000000
  ∧ (exp access < exp refresh)%Z.
Proof.
  intros He Hp Hu Hc Hnow access refresh Ha Hr.
  split.
  - unfold Login_post. rewrite (parse_login_args _ _ _ He Hp).
    rewrite get_insert_eq, get_insert_ne, get_insert_eq by done.
    rewrite Hu, Hc. simpl. fold access refresh. rewrite Ha, Hr. reflexivity.
  - split; [exact (find_true _ _ _ Hu) |].
    subst access refresh. unfold timedelta in *. simpl. repeat split; lia.
Qed.

(** C2 on the sample database: alice logs in. *)
Lemma Login_issues_tokens_witness :
  Login_post (W := Sample.world) 1700000000000000 1700000000000250
    (Sample.login_request "alice@sendit.test" "wonderland") (begin Sample.db1)
  = (Return ([("token", VStr "HS256.1.1700003600.9d970c5fb1d04ea380828d9c491448ce");
              ("refresh_token", VStr "HS256.1.1702592000.9d970c5fb1d04ea380828d9c491448ce")],
             200), begin Sample.db1)
  ∧ (1700000000000000 + 3600 * 1000000 < 1700000000000250 + 30 * 86400 * 1000000)%Z.
Proof.
  pose proof (Login_issues_tokens (W := Sample.world) 1700000000000000 1700000000000250
    (Sample.login_request "alice@sendit.test" "wonderland")
    (begin Sample.db1) (VStr "alice@sendit.test") (VStr "wonderland") Sample.alice
    "HS256.1.1700003600.9d970c5fb1d04ea380828d9c491448ce"
    "HS256.1.1702592000.9d970c5fb1d04ea380828d9c491448ce"
    eq_refl eq_refl eq_refl eq_refl ltac:(unfold timedelta; lia) eq_refl eq_refl) as H.
  split; [exact (proj1 H) |].
  destruct H as (_ & _ & _ & _ & H1 & H2 & H3). simpl in *. lia.
Defined.

(** The length of a concatenation. *)
Lemma string_length_app (a b : string) :
  String.length (a ++ b) = (String.length a + String.length b)%nat.
Proof. induction a as [| c a IH]; simpl; [reflexivity | by rewrite IH]. Qed.

(** The sample hasher never returns the password it is given. *)
Lemma Sample_hash_differs (salt plain hashed : string) :
  generate_password_hash (World := Sample.world) salt (VStr plain) = inr hashed →
  hashed ≠ plain.
Proof.
  simpl. destruct plain as [| c plain]; [discriminate |].
  intros [= <-] H. apply (f_equal String.length) in H.
  rewrite !string_length_app in H. simpl in H. lia.
Qed.

(** [convert] leaves a string as it is, and what it returns is a
    string or [None]. *)
Lemma convert_cases `{W : World} (v : value) :
  (v = VNone ∧ convert v = VNone) ∨ (∃ x, convert v = VStr x ∧ (∀ y, v = VStr y → x = y)).
Proof.
  destruct v; simpl; eauto; right; eexists; (split; [reflexivity |]); intros y Hy;
    try discriminate.
  by injection Hy.
Qed.

(** The column defaults leave the password of a user as it is. *)
Lemma insert_defaults_password (u : User.t) :
  User.password (User.insert_defaults u) = User.password u.
Proof. unfold User.insert_defaults. by destruct (User.role u). Qed.

(** C3. A signup with email, password and username present, whose
    password the hasher accepts and whose commit the engine accepts,
    is answered 201 and adds exactly one row to the users table.  The
    password stored in that row is the hash the hasher gives for the
    parsed password, and it differs from the password supplied, the
    hasher never returning what it is given. *)
Theorem Signup_creates_user `{W : World} (salt : string) (req : request) (db : database)
    (e p n : value) (hashed : string) :
  argument req "email" = Some e →
  argument req "password" = Some p →
  argument req "username" = Some n →
  generate_password_hash salt (convert p) = inr hashed →
  (∀ plain h, generate_password_hash salt (VStr plain) = inr h → h ≠ plain) →
  let new_user :=
    User.insert_defaults
      (User.mk (alloc_id (List.map User.id (users db))) (convert n) (convert e)
         (VStr hashed) (parsed_role req)) in
  let db' :=
    mkDatabase (users db ++ [new_user]) (orders db) (feedbacks db) (parcels db)
      (profiles db) in
  flush db db' = None →
  run (Signup_post salt req) db = ((msg "User created successfully", 201), db')
  ∧ length (users db') = S (length (users db))
  ∧ User.password new_user = VStr hashed
  ∧ User.password new_user ≠ p
  ∧ User.password new_user ≠ convert p.
Proof.
  intros He Hp Hn Hhashed Hhash new_user db' Hflush.
  assert (Hpw : User.password new_user = VStr hashed)
    by (subst new_user; by rewrite insert_defaults_password).
  split; [| split; [| split; [exact Hpw |]]].
  - unfold run, Signup_post. rewrite (parse_register_args _ _ _ _ He Hp Hn).
    rewrite (get_insert_ne _ "email" "password"), get_insert_eq by done.
    rewrite Hhashed.
    unfold Signup_new_user, get_default.
    rewrite !get_insert_eq.
    rewrite (get_insert_ne _ "email" "username"), (get_insert_ne _ "password" "username"),
      get_insert_eq by done.
    rewrite !lookup_insert_ne, lookup_insert_eq by done.
    unfold session_add, session_commit. simpl.
    fold new_user. fold db'. rewrite Hflush. reflexivity.
  - simpl. rewrite length_app. simpl. lia.
  - rewrite Hpw. destruct (convert_cases p) as [[-> ->] | (x & Hx & Hy)].
    + split; discriminate.
    + rewrite Hx in *. split.
      * intros Heq. specialize (Hy _ (eq_sym Heq)). subst x.
        by apply (Hhash hashed hashed).
      * intros Heq. injection Heq as ->. by apply (Hhash x x).
Qed.

(** C4. When the commit of a signup raises, whatever the exception, the
    handler rolls the session back: the committed database is the one
    before the request, nothing is left pending, and the response is
    the same generic message with status 500.  (The commit is reached
    once the arguments are parsed and the password is hashed.) *)
Theorem Signup_failure_rolls_back `{W : World} (salt : string) (req : request)
    (s : session) (data : gmap string value) (hashed : string) (err : exn) :
  parse_args register_args req = inr data →
  generate_password_hash salt (get data "password") = inr hashed →
  session_commit (snd (session_add (Signup_new_user hashed data) s)) = inl err →
  ∃ s', Signup_post salt req s
        = (Return (msg "An error occurred while creating the user", 500), s')
        ∧ committed s' = committed s
        ∧ working s' = committed s
        ∧ teardown s' = committed s.
Proof.
  intros Hdata Hhashed Hcommit. unfold Signup_post. rewrite Hdata, Hhashed.
  destruct (session_add (Signup_new_user hashed data) s) as [u s1] eqn:Hadd.
  simpl in Hcommit. rewrite Hcommit.
  eexists. split; [reflexivity |].
  unfold session_add in Hadd. injection Hadd as _ <-. simpl. done.
Qed.

Section QueryFacts.
Context `{M : Model R}.

(** After the rows under a key are filtered out, none is found under
    it. *)
Lemma find_filter_out (i : Z) (l : list R) :
List.find (has_pk i) (List.filter (fun r => negb (has_pk i r)) l) = None.
Proof.
induction l as [| r l IH]; simpl; [reflexivity |].
destruct (has_pk i r) eqn:Hr; simpl; [exact IH |].
rewrite Hr. exact IH.
Qed.

Lemma filter_out_has_pk (i : Z) (l : list R) (r : R) :
In r (List.filter (fun r => negb (has_pk i r)) l) → has_pk i r = false.
Proof.
intros H. apply List.filter_In in H. destruct H as [_ H].
by apply negb_true_iff in H.
Qed.

(** A key under which [query.get] returns is one SQLite holds. *)
Lemma query_get_inr (i : Z) (s : session) (x : option R) :
query_get i s = inr x → sqlite_integer i = true ∧ x = List.find (has_pk i) (table (working s)).
Proof.
unfold query_get. destruct (sqlite_integer i); [| discriminate].
by intros [= <-].
Qed.

(** Under such a key it returns the first row that carries it. *)
Lemma query_get_in_range (i : Z) (s : session) :
sqlite_integer i = true → query_get i s = inr (List.find (has_pk i) (table (working s))).
Proof. unfold query_get. by intros ->. Qed.
End QueryFacts.

(** C7. The list operation of each of the five resources answers 200
    with the serialisation of every row of its table, in order, and a
    [count] field that is the number of rows returned; the database is
    left as it was. *)
Theorem list_returns_all_rows `{W : World} (db : database) :
  (run Users_get db = ((listing "users" (List.map user_to_dict (users db)), 200), db)
   ∧ run Orders_get db = ((listing "orders" (List.map order_to_dict (orders db)), 200), db)
   ∧ run FeedbackResource_get db
     = ((listing "feedbacks" (List.map feedback_to_dict (feedbacks db)), 200), db)
   ∧ run Parcels_get db = ((listing "parcels" (List.map parcel_to_dict (parcels db)), 200), db)
   ∧ run Profiles_get db
     = ((listing "profiles" (List.map profile_to_dict (profiles db)), 200), db))
  ∧ (∀ (X : Type) (to_dict : X → dict) (key : string) (rows : list X),
       field "count" (listing key (List.map to_dict rows))
       = Some (VInt (Z.of_nat (length rows)))
       ∧ (key ≠ "count" →
          field key (listing key (List.map to_dict rows))
          = Some (VList (List.map VDict (List.map to_dict rows))))).
Proof.
  split; [repeat split |].
  intros X to_dict key rows. split.
  - unfold field, listing. simpl. by rewrite length_map.
  - intros Hkey. unfold field, listing. cbn [List.find fst].
    destruct (String.eqb_spec "count" key) as [Heq | _]; [by subst |].
    by rewrite String.eqb_refl.
Qed.

(** C8. For an id that some user carries, a PATCH whose body holds the
    single key [username], once committed, is answered 200 and gives
    the rows under that id the supplied username; their other columns,
    the other rows of the users table and the other tables are what
    they were. *)
Theorem patch_username_only `{W : World} (id : Z) (m : http_method) (pth : list string)
    (vals : gmap string string) (v : value) (db : database) (user : User.t) :
  query_get id (begin db) = inr (Some user) →
  let req := mkRequest m pth {["username" := v]} vals in
  let rename := fun u : User.t =>
    User.mk (User.id u) v (User.email u) (User.password u) (User.role u) in
  let db' :=
    mkDatabase (List.map (fun u => if has_pk id u then rename u else u) (users db))
      (orders db) (feedbacks db) (parcels db) (profiles db) in
  flush db db' = None →
  run (UserByID_patch id req) db = ((user_to_dict (rename user), 200), db').
Proof.
  intros Hget req rename db' Hflush.
  assert (Hfold : ∀ u, apply_json User.set_column (json req) u
                       = mkPatched (rename u) None None).
  { intros u. unfold apply_json, req. simpl. by rewrite map_fold_singleton. }
  unfold run, UserByID_patch. rewrite Hget, Hfold.
  unfold session_commit, session_update. simpl.
  rewrite (List.map_ext _ (fun u => if has_pk id u then rename u else u))
    by (intros u; by rewrite Hfold).
  fold db'. by rewrite Hflush.
Qed.

(** C9. For an id that some order carries, DELETE on it, once
    committed, is answered 200 and leaves no order under that id, and a
    GET on the same id against the resulting database is answered
    404. *)
Theorem delete_order_then_get `{W : World} (id : Z) (db : database) (order : Order.t) :
  query_get id (begin db) = inr (Some order) →
  let db' :=
    mkDatabase (users db) (List.filter (fun o => negb (has_pk id o)) (orders db))
      (feedbacks db) (parcels db) (profiles db) in
  flush db db' = None →
  run (OrderByID_delete id) db = ((message "Order deleted", 200), db')
  ∧ (∀ o, In o (orders db') → has_pk id o = false)
  ∧ run (OrderByID_get id) db' = ((message "Order not found", 404), db').
Proof.
  intros Hget db' Hflush.
  destruct (query_get_inr _ _ _ Hget) as [Hid _].
  split; [| split].
  - unfold run, OrderByID_delete. rewrite Hget.
    unfold session_commit, session_delete. simpl. fold db'. by rewrite Hflush.
  - intros o. apply filter_out_has_pk.
  - unfold run, OrderByID_get. rewrite (query_get_in_range _ _ Hid). simpl.
    by rewrite find_filter_out.
Qed.

(** The role a successful parse of [register_args] records. *)
Lemma parse_register_role `{W : World} (req : request) (data : gmap string value) :
  parse_args register_args req = inr data →
  data !! "role" = Some (parsed_role req).
Proof.
  unfold register_args, parsed_role. cbn [parse_args]. unfold parse_argument.
  cbn [name required default_value help].
  destruct (argument req "email"); [| discriminate].
  destruct (argument req "password"); [| discriminate].
  destruct (argument req "username"); [| discriminate].
  destruct (argument req "role"); cbn; intros H; injection H as <-;
    by rewrite !lookup_insert_ne, lookup_insert_eq by done.
Qed.

(** C5. POST /users stores the password of the request body as it is:
    for a body whose password is the string [plain], the row added to
    the session, and to the database when the commit is accepted, has
    [plain] itself as its password, not a hash of it. *)
Theorem Users_post_stores_plaintext `{W : World} (m : http_method) (pth : list string)
    (rest : gmap string value) (vals : gmap string string) (plain : string)
    (db : database) :
  let req := mkRequest m pth (<["password" := VStr plain]> rest) vals in
  let new_user :=
    User.insert_defaults
      (User.mk (alloc_id (List.map User.id (users db))) (get (json req) "username")
         (get (json req) "email") (VStr plain) (get (json req) "role")) in
  let db' :=
    mkDatabase (users db ++ [new_user]) (orders db) (feedbacks db) (parcels db)
      (profiles db) in
  run (Users_post req) db
  = match flush db db' with
    | None => ((user_to_dict new_user, 201), db')
    | Some _ => (server_error, db)
    end
  ∧ User.password new_user = VStr plain.
Proof.
  intros req new_user db'. split; [| by apply insert_defaults_password].
  subst req new_user db'.
  unfold run, Users_post, Users_new_user, session_add, session_commit. simpl.
  rewrite get_insert_eq.
  destruct (flush db _); reflexivity.
Qed.

(** PATCH /users/<id> does the same with a [password] key. *)
Lemma UserByID_patch_stores_plaintext `{W : World} (id : Z) (m : http_method)
    (pth : list string) (vals : gmap string string) (plain : string) (u : User.t) :
  apply_json User.set_column
    (json (mkRequest m pth {["password" := VStr plain]} vals)) u
  = mkPatched
      (User.mk (User.id u) (User.username u) (User.email u) (VStr plain) (User.role u))
      None None.
Proof. unfold apply_json. simpl. by rewrite map_fold_singleton. Qed.

(** C10, amended. When the body has no [role] key, the user POST
    /users builds has [None] as its role: the handler applies no
    default of its own, whereas the user Signup builds from a request
    without a role has the role "customer".  The row POST /users
    stores has the role "customer" all the same, by the default of the
    column. *)
Theorem Users_post_role_is_the_column_default `{W : World} (req : request)
    (db : database) :
  json req !! "role" = None →
  let created :=
    User.mk (alloc_id (List.map User.id (users db))) (get (json req) "username")
      (get (json req) "email") (get (json req) "password") (VStr "customer") in
  let db' :=
    mkDatabase (users db ++ [created]) (orders db) (feedbacks db) (parcels db)
      (profiles db) in
  (flush db db' = None → run (Users_post req) db = ((user_to_dict created, 201), db'))
  ∧ User.role (Users_new_user req) = VNone
  ∧ User.role created = VStr "customer"
  ∧ (∀ hashed data, argument req "role" = None →
       parse_args register_args req = inr data →
       User.role (Signup_new_user hashed data) = VStr "customer").
Proof.
  intros Hrole created db'.
  assert (Hget : get (json req) "role" = VNone) by (unfold get; by rewrite Hrole).
  split; [| split; [exact Hget | split; [reflexivity |]]].
  - intros Hflush.
    subst created db'.
    unfold run, Users_post, Users_new_user, session_add, session_commit. simpl.
    unfold User.insert_defaults. simpl. rewrite Hget. by rewrite Hflush.
  - intros hashed data Harg Hdata. apply parse_register_role in Hdata.
    unfold Signup_new_user, get_default. simpl. rewrite Hdata.
    unfold parsed_role. by rewrite Harg.
Qed.

(** C10 as stated fails: bob, created by POST /users without a role,
    is stored with the role "customer". *)
Lemma Users_post_stores_a_role :
  ¬ (∀ req db created,
       json req !! "role" = None →
       users (snd (run (Users_post (W := Sample.world) req) db)) = (users db ++ [created])%list →
       User.role created = VNone).
Proof.
  intros H.
  specialize (H (Sample.create_user_request "bob@sendit.test" "hunter2" "bob") Sample.db1
                (Sample.bob (VStr "hunter2") (VStr "customer")) eq_refl eq_refl).
  discriminate H.
Qed.

(** The by-id rules, matched. *)
Lemma find_rule_users `{W : World} (seg : string) (id : Z) :
  int_converter seg = Some id →
  find_rule resources ["users"; seg] = Some (UserByID, Some id).
Proof. intros H. unfold resources. cbn [find_rule match_rule String.eqb Ascii.eqb Bool.eqb]. by rewrite H. Qed.

Lemma find_rule_orders `{W : World} (seg : string) (id : Z) :
  int_converter seg = Some id →
  find_rule resources ["orders"; seg] = Some (OrderByID, Some id).
Proof. intros H. unfold resources. cbn [find_rule match_rule String.eqb Ascii.eqb Bool.eqb]. by rewrite H. Qed.

(** C6, amended. The by-id endpoints exist for users and orders only:
    GET, PATCH and DELETE on /users/<id> and /orders/<id> reach the
    handler of the resource, which answers 404 and changes nothing when
    the lookup of the id finds no row (the id being one the database
    can hold).  No rule matches /feedback/<x>, /parcels/<x> or
    /profiles/<x>: the application answers them with its handler for
    404, whatever the tables hold. *)
Theorem by_id_endpoints_of_users_and_orders `{W : World} :
  (∀ m, by_id_method m = true → by_id_endpoint "users" m ∧ by_id_endpoint "orders" m)
  ∧ (∀ e m seg id body vals db,
       by_id_method m = true → int_converter seg = Some id →
       query_get (R := User.t) id (begin db) = inr None →
       dispatch e (mkRequest m ["users"; seg] body vals) db
       = (Json (message "User not found", 404), db))
  ∧ (∀ e m seg id body vals db,
       by_id_method m = true → int_converter seg = Some id →
       query_get (R := Order.t) id (begin db) = inr None →
       dispatch e (mkRequest m ["orders"; seg] body vals) db
       = (Json (message "Order not found", 404), db))
  ∧ (∀ e m seg body vals db,
       dispatch e (mkRequest m ["feedback"; seg] body vals) db
       = (Json (not_found str_not_found), db)
       ∧ dispatch e (mkRequest m ["parcels"; seg] body vals) db
         = (Json (not_found str_not_found), db)
       ∧ dispatch e (mkRequest m ["profiles"; seg] body vals) db
         = (Json (not_found str_not_found), db)).
Proof.
  split; [| split; [| split]].
  - intros m Hm. split; intros seg id Hseg.
    + exists UserByID. rewrite (find_rule_users _ _ Hseg).
      destruct m; try discriminate; eauto.
    + exists OrderByID. rewrite (find_rule_orders _ _ Hseg).
      destruct m; try discriminate; eauto.
  - intros e m seg id body vals db Hm Hseg Hget. unfold dispatch. cbn [path].
    change (app_route ["users"; seg]) with (@None (option reply)).
    rewrite (find_rule_users _ _ Hseg).
    destruct m; try discriminate; cbn [view method];
      unfold run, UserByID_get, UserByID_patch, UserByID_delete; by rewrite Hget.
  - intros e m seg id body vals db Hm Hseg Hget. unfold dispatch. cbn [path].
    change (app_route ["orders"; seg]) with (@None (option reply)).
    rewrite (find_rule_orders _ _ Hseg).
    destruct m; try discriminate; cbn [view method];
      unfold run, OrderByID_get, OrderByID_patch, OrderByID_delete; by rewrite Hget.
  - intros e m seg body vals db. repeat split.
Qed.

(** C6 as stated fails: /feedback/1 has no get-by-id endpoint. *)
Lemma feedback_has_no_by_id_endpoint :
  ¬ (∀ prefix, In prefix ["users"; "orders"; "feedback"; "parcels"; "profiles"] →
       ∀ m, by_id_method m = true → by_id_endpoint (W := Sample.world) prefix m).
Proof.
  intros H.
  destruct (H "feedback" ltac:(simpl; tauto) GET eq_refl "1" 1 eq_refl)
    as (r & h & Hr & _).
  discriminate Hr.
Qed.

(** C3 on the sample database: bob signs up. *)
Lemma Signup_creates_user_witness :
  run (Signup_post (W := Sample.world) "salt"
         (Sample.signup_request "bob@sendit.test" "hunter2" "bob")) Sample.db1
  = ((msg "User created successfully", 201),
     Sample.with_users
       [Sample.alice; Sample.bob (VStr "$2b$salt$hunter2") (VStr "customer")])
  ∧ VStr "$2b$salt$hunter2" ≠ VStr "hunter2".
Proof.
  pose proof (Signup_creates_user (W := Sample.world) "salt"
    (Sample.signup_request "bob@sendit.test" "hunter2" "bob") Sample.db1
    (VStr "bob@sendit.test") (VStr "hunter2") (VStr "bob") "$2b$salt$hunter2"
    eq_refl eq_refl eq_refl eq_refl (Sample_hash_differs "salt") eq_refl) as H.
  split; [exact (proj1 H) | exact (proj1 (proj2 (proj2 (proj2 H))))].
Defined.

(** C4 on the sample database: a signup with the email alice has. *)
Lemma Signup_failure_rolls_back_witness :
  ∃ s', Signup_post (W := Sample.world) "salt"
          (Sample.signup_request "alice@sendit.test" "hunter2" "al") (begin Sample.db1)
        = (Return (msg "An error occurred while creating the user", 500), s')
        ∧ committed s' = Sample.db1
        ∧ working s' = Sample.db1
        ∧ teardown s' = Sample.db1.
Proof.
  exact (Signup_failure_rolls_back (W := Sample.world) "salt"
    (Sample.signup_request "alice@sendit.test" "hunter2" "al") (begin Sample.db1)
    (Sample.body [("email", VStr "alice@sendit.test"); ("password", VStr "hunter2");
                  ("username", VStr "al"); ("role", VStr "customer")])
    "$2b$salt$hunter2"
    (Exn "IntegrityError" "UNIQUE constraint failed: users.email")
    eq_refl eq_refl eq_refl).
Defined.

(** C8 on the sample database: alice is renamed. *)
Lemma patch_username_only_witness :
  run (UserByID_patch (W := Sample.world) 1
         (mkRequest PATCH ["users"; "1"] {["username" := VStr "al"]} ∅)) Sample.db1
  = (([("id", VInt 1); ("username", VStr "al"); ("email", VStr "alice@sendit.test");
       ("role", VStr "customer")], 200),
     Sample.with_users
       [User.mk (VInt 1) (VStr "al") (VStr "alice@sendit.test")
          (VStr "$2b$salt$wonderland") (VStr "customer")]).
Proof.
  exact (patch_username_only (W := Sample.world) 1 PATCH ["users"; "1"] ∅ (VStr "al")
           Sample.db1 Sample.alice eq_refl eq_refl).
Defined.

(** C9 on the sample database: order 7 is deleted, then asked for. *)
Lemma delete_order_then_get_witness :
  run (OrderByID_delete (W := Sample.world) 7) Sample.db1
  = ((message "Order deleted", 200),
     mkDatabase [Sample.alice] [] [Sample.complaint] [] [])
  ∧ run (OrderByID_get (W := Sample.world) 7)
      (mkDatabase [Sample.alice] [] [Sample.complaint] [] [])
    = ((message "Order not found", 404),
       mkDatabase [Sample.alice] [] [Sample.complaint] [] []).
Proof.
  pose proof (delete_order_then_get (W := Sample.world) 7 Sample.db1
                Sample.parcel_order eq_refl eq_refl) as H.
  split; [exact (proj1 H) | exact (proj2 (proj2 H))].
Defined.

(** C10 on the sample database: bob is created without a role. *)
Lemma Users_post_role_is_the_column_default_witness :
  run (Users_post (W := Sample.world)
         (Sample.create_user_request "bob@sendit.test" "hunter2" "bob")) Sample.db1
  = (([("id", VInt 2); ("username", VStr "bob"); ("email", VStr "bob@sendit.test");
       ("role", VStr "customer")], 201),
     Sample.with_users [Sample.alice; Sample.bob (VStr "hunter2") (VStr "customer")])
  ∧ User.role
      (Users_new_user (Sample.create_user_request "bob@sendit.test" "hunter2" "bob"))
    = VNone.
Proof.
  pose proof (Users_post_role_is_the_column_default (W := Sample.world)
    (Sample.create_user_request "bob@sendit.test" "hunter2" "bob") Sample.db1 eq_refl)
    as H.
  split; [exact (proj1 H eq_refl) | exact (proj1 (proj2 H))].
Defined.

(** POST /users on the sample database: the password "hunter2" is in
    the users table as it was sent. *)
Example Users_post_plaintext_example :
  snd (run (Users_post (W := Sample.world)
              (Sample.create_user_request "bob@sendit.test" "hunter2" "bob")) Sample.db1)
  = Sample.with_users [Sample.alice; Sample.bob (VStr "hunter2") (VStr "customer")].
Proof. reflexivity. Qed.

(** * Further properties of the handlers *)

Section GetFacts.
Context `{M : Model R}.

(** [has_pk] spelled out. *)
Lemma has_pk_true (i : Z) (r : R) : has_pk i r = true ↔ pk r = VInt i.
Proof.
  unfold has_pk. destruct (pk r) as [| | z | | |]; try (split; [discriminate | discriminate]).
  rewrite Z.eqb_eq. split; [by intros -> | by intros [=]].
Qed.

(** [Model.query.get(id)] returns a row of the table that carries the
    key. *)
Lemma query_get_Some (i : Z) (s : session) (r : R) :
  query_get i s = inr (Some r) → In r (table (working s)) ∧ pk r = VInt i.
Proof.
  intros H. apply query_get_inr in H as [_ H]. symmetry in H.
  apply List.find_some in H. by rewrite has_pk_true in H.
Qed.

(** It returns [None] exactly when the key is one SQLite holds and no
    row of the table carries it. *)
Lemma query_get_None (i : Z) (s : session) :
  query_get (R := R) i s = inr None
  ↔ sqlite_integer i = true ∧ ∀ r, In r (table (working s)) → pk r ≠ VInt i.
Proof.
  split.
  - intros H. apply query_get_inr in H as [Hi H]. symmetry in H. split; [done |].
    intros r Hr Hpk. apply (List.find_none _ _ H) in Hr.
    apply has_pk_true in Hpk. congruence.
  - intros [Hi H]. rewrite (query_get_in_range _ _ Hi). f_equal.
    destruct (List.find _ _) as [r |] eqn:Hfind; [| reflexivity].
    apply List.find_some in Hfind. rewrite has_pk_true in Hfind.
    destruct Hfind as [Hin Hpk]. by destruct (H r Hin).
Qed.
End GetFacts.

(** X1. For an id SQLite can hold, GET /users/<id> is answered 404
    exactly when no row of the users table carries the id; otherwise it
    is answered 200 with the serialisation of a row that carries it.
    Either way the database is left as it was. *)
Theorem UserByID_get_404_iff `{W : World} (id : Z) (db : database) :
  sqlite_integer id = true →
  (status (fst (run (UserByID_get id) db)) = 404
   ↔ ∀ u, In u (users db) → User.id u ≠ VInt id)
  ∧ (status (fst (run (UserByID_get id) db)) = 404 ∨
     ∃ u, In u (users db) ∧ User.id u = VInt id
          ∧ fst (run (UserByID_get id) db) = (user_to_dict u, 200))
  ∧ snd (run (UserByID_get id) db) = db.
Proof.
  intros Hid. unfold run, UserByID_get.
  rewrite (query_get_in_range (R := User.t) id (begin db) Hid).
  destruct (List.find _ _) as [u |] eqn:Hfind; simpl.
  - apply List.find_some in Hfind as [Hin Hpk]. apply has_pk_true in Hpk. simpl in *.
    repeat split.
    + discriminate.
    + intros H. by destruct (H u Hin).
    + right. by exists u.
  - repeat split; [| by left].
    intros _ u Hu Hpk. apply (List.find_none _ _ Hfind) in Hu.
    pose proof (proj2 (has_pk_true (R := User.t) id u) Hpk). congruence.
Qed.

(** X2. For an id SQLite can hold, GET /orders/<id> is answered 404
    exactly when no row of the orders table carries the id; otherwise
    it is answered 200 with the serialisation of a row that carries it.
    Either way the database is left as it was. *)
Theorem OrderByID_get_404_iff `{W : World} (id : Z) (db : database) :
  sqlite_integer id = true →
  (status (fst (run (OrderByID_get id) db)) = 404
   ↔ ∀ o, In o (orders db) → Order.id o ≠ VInt id)
  ∧ (status (fst (run (OrderByID_get id) db)) = 404 ∨
     ∃ o, In o (orders db) ∧ Order.id o = VInt id
          ∧ fst (run (OrderByID_get id) db) = (order_to_dict o, 200))
  ∧ snd (run (OrderByID_get id) db) = db.
Proof.
  intros Hid. unfold run, OrderByID_get.
  rewrite (query_get_in_range (R := Order.t) id (begin db) Hid).
  destruct (List.find _ _) as [o |] eqn:Hfind; simpl.
  - apply List.find_some in Hfind as [Hin Hpk]. apply has_pk_true in Hpk. simpl in *.
    repeat split.
    + discriminate.
    + intros H. by destruct (H o Hin).
    + right. by exists o.
  - repeat split; [| by left].
    intros _ o Ho Hpk. apply (List.find_none _ _ Hfind) in Ho.
    pose proof (proj2 (has_pk_true (R := Order.t) id o) Hpk). congruence.
Qed.

(** A conjunction folded over a body holds of each of its keys. *)
Lemma map_fold_andb (f : string → value → bool) (m : gmap string value) :
  map_fold (fun k v b => b && f k v) true m = true
  ↔ ∀ k v, m !! k = Some v → f k v = true.
Proof.
  induction m as [| i x m Hi Hfirst IH] using map_first_key_ind.
  - rewrite map_fold_empty. split; [| done].
    intros _ k v H. by rewrite lookup_empty in H.
  - rewrite map_fold_insert_first_key by done. rewrite andb_true_iff, IH. split.
    + intros [Hm Hix] k v Hk. destruct (decide (k = i)) as [-> | Hne].
      * rewrite lookup_insert_eq in Hk. by injection Hk as <-.
      * rewrite lookup_insert_ne in Hk by done. eauto.
    + intros H. split.
      * intros k v Hk. apply H. rewrite lookup_insert_ne; [done | congruence].
      * apply H. by rewrite lookup_insert_eq.
Qed.

Section SetattrFacts.
Context `{W : World} {R : Type}.
Variable set_column : string → value → R → option R.
Variable columns : list string.
Hypothesis set_column_None :
  ∀ k v r, set_column k v r = None ↔ existsb (String.eqb k) columns = false.

(** What one assignment does, by the effect of its key. *)
Lemma setattr_effect (k : string) (v : value) (o : patched R) :
  raised o = None →
  match effect_of columns k v with
  | Plain => raised (setattr set_column k v o) = None
             ∧ to_dict_error (setattr set_column k v o) = to_dict_error o
  | RaisesOnSet e => raised (setattr set_column k v o) = Some e
  | BreaksToDict e => raised (setattr set_column k v o) = None
                      ∧ to_dict_error (setattr set_column k v o) ≠ None
  end.
Proof.
  intros Ho. unfold setattr, effect_of. rewrite Ho.
  destruct (set_column k v (obj o)) as [r |] eqn:Hsc.
  - destruct (existsb (String.eqb k) columns) eqn:Hk; [done |].
    pose proof (proj2 (set_column_None k v (obj o)) Hk). congruence.
  - apply (proj1 (set_column_None k v (obj o))) in Hsc. rewrite Hsc.
    destruct (setattr_other k v); simpl; try done.
    by destruct (to_dict_error o).
Qed.

(** Once an assignment has raised, the loop is over. *)
Lemma setattr_raised (k : string) (v : value) (o : patched R) :
  raised o ≠ None → setattr set_column k v o = o.
Proof. unfold setattr. by destruct (raised o). Qed.

(** The loop raises when the assignment of one of its keys does. *)
Lemma apply_json_raises (body : gmap string value) (u : R) (k : string) (v : value)
    (e : exn) :
  body !! k = Some v → effect_of columns k v = RaisesOnSet e →
  raised (apply_json set_column body u) ≠ None.
Proof.
  intros Hk He. revert Hk. unfold apply_json.
  apply (map_fold_weak_ind (fun r m => m !! k = Some v → raised r ≠ None)).
  - by rewrite lookup_empty.
  - intros i x m r Hi IH Hk.
    destruct (raised r) as [e' |] eqn:Hr.
    { rewrite setattr_raised by (by rewrite Hr). by rewrite Hr. }
    destruct (decide (i = k)) as [-> | Hne].
    + rewrite lookup_insert_eq in Hk. injection Hk as ->.
      pose proof (setattr_effect k v r Hr) as H. rewrite He in H. by rewrite H.
    + rewrite lookup_insert_ne in Hk by done. by destruct (IH Hk).
Qed.



(** A body of plain keys neither raises nor harms [to_dict()]. *)
Lemma apply_json_plain (body : gmap string value) (u : R) :
  plain_body columns body = true →
  raised (apply_json set_column body u) = None
  ∧ to_dict_error (apply_json set_column body u) = None.
Proof.
  unfold plain_body. rewrite map_fold_andb. unfold apply_json.
  apply (map_fold_weak_ind
           (fun r m => (∀ k v, m !! k = Some v →
                          match effect_of columns k v with
                          | Plain => true
                          | _ => false
                          end = true) → raised r = None ∧ to_dict_error r = None)).
  - done.
  - intros i x m r Hi IH H.
    assert (Hr : raised r = None ∧ to_dict_error r = None).
    { apply IH. intros k v Hk. apply H. rewrite lookup_insert_ne; [done | congruence]. }
    destruct Hr as [Hr Ht].
    pose proof (setattr_effect i x r Hr) as Heff.
    specialize (H i x (lookup_insert_eq _ _ _)).
    destruct (effect_of columns i x); [| discriminate | discriminate].
    destruct Heff as [-> ->]. done.
Qed.

(** [to_dict()] is harmed only by a key of the body that shadows what
    it needs. *)
Lemma apply_json_to_dict_error (body : gmap string value) (u : R) :
  to_dict_error (apply_json set_column body u) ≠ None →
  ∃ k v e, body !! k = Some v ∧ setattr_other k v = BreaksToDict e.
Proof.
  unfold apply_json.
  apply (map_fold_weak_ind
           (fun r m => to_dict_error r ≠ None →
                       ∃ k v e, m !! k = Some v ∧ setattr_other k v = BreaksToDict e)).
  - done.
  - intros i x m r Hi IH Ht.
    assert (Hold : to_dict_error r ≠ None →
                   ∃ k v e, <[i:=x]> m !! k = Some v ∧ setattr_other k v = BreaksToDict e).
    { intros H. destruct (IH H) as (k & v & e & Hk & He). exists k, v, e.
      split; [| done]. rewrite lookup_insert_ne; [done | congruence]. }
    destruct (raised r) as [e' |] eqn:Hr.
    { rewrite setattr_raised in Ht by (by rewrite Hr). auto. }
    pose proof (setattr_effect i x r Hr) as Heff.
    unfold effect_of in Heff.
    destruct (existsb (String.eqb i) columns).
    { destruct Heff as [_ Heq]. rewrite Heq in Ht. auto. }
    destruct (setattr_other i x) as [| e | e] eqn:Hother.
    + destruct Heff as [_ Heq]. rewrite Heq in Ht. auto.
    + unfold setattr in Ht. rewrite Hr in Ht.
      destruct (set_column i x (obj r)); [auto |]. rewrite Hother in Ht. auto.
    + exists i, x, e. by rewrite lookup_insert_eq.
Qed.
End SetattrFacts.

(** The names [set_column] refuses are those that are no column. *)
Lemma User_set_column_None (k : string) (v : value) (u : User.t) :
  User.set_column k v u = None ↔ existsb (String.eqb k) User.columns = false.
Proof.
  unfold User.set_column, User.columns. cbn [existsb].
  repeat (match goal with
          | |- context [String.eqb k ?c] => destruct (String.eqb k c)
          end; [by split |]).
  done.
Qed.

Lemma Order_set_column_None (k : string) (v : value) (o : Order.t) :
  Order.set_column k v o = None ↔ existsb (String.eqb k) Order.columns = false.
Proof.
  unfold Order.set_column, Order.columns. cbn [existsb].
  repeat (match goal with
          | |- context [String.eqb k ?c] => destruct (String.eqb k c)
          end; [by split |]).
  done.
Qed.

(** The [setattr] loop over a body, unless it raises, overrides
    exactly the columns the body names, whatever the order of its
    keys. *)
Lemma User_setattr_fold `{W : World} (body : gmap string value) (u : User.t) :
  raised (apply_json User.set_column body u) = None →
  obj (apply_json User.set_column body u)
  = User.mk (get_default body "id" (User.id u))
      (get_default body "username" (User.username u))
      (get_default body "email" (User.email u))
      (get_default body "password" (User.password u))
      (get_default body "role" (User.role u)).
Proof.
  unfold apply_json.
  apply (map_fold_weak_ind
           (fun r m => raised r = None →
                       obj r = User.mk (get_default m "id" (User.id u))
                                 (get_default m "username" (User.username u))
                                 (get_default m "email" (User.email u))
                                 (get_default m "password" (User.password u))
                                 (get_default m "role" (User.role u)))).
  - intros _. unfold get_default. rewrite !lookup_empty. by destruct u.
  - intros i x m r Hi IH.
    destruct (raised r) as [e' |] eqn:Hr.
    { rewrite setattr_raised by (by rewrite Hr). by rewrite Hr. }
    specialize (IH eq_refl). unfold setattr. rewrite Hr, IH. unfold User.set_column.
    cbn [User.id User.username User.email User.password User.role].
    case_attr i "id". case_attr i "username". case_attr i "email".
    case_attr i "password". case_attr i "role".
    intros _. unfold get_default. rewrite !lookup_insert_ne by done.
    by destruct (setattr_other i x).
Qed.

(** The same for an order. *)
Lemma Order_setattr_fold `{W : World} (body : gmap string value) (o : Order.t) :
  raised (apply_json Order.set_column body o) = None →
  obj (apply_json Order.set_column body o)
  = Order.mk (get_default body "id" (Order.id o))
      (get_default body "pickup_address" (Order.pickup_address o))
      (get_default body "delivery_address" (Order.delivery_address o))
      (get_default body "status" (Order.status o))
      (get_default body "user_id" (Order.user_id o)).
Proof.
  unfold apply_json.
  apply (map_fold_weak_ind
           (fun r m => raised r = None →
                       obj r = Order.mk (get_default m "id" (Order.id o))
                                 (get_default m "pickup_address" (Order.pickup_address o))
                                 (get_default m "delivery_address" (Order.delivery_address o))
                                 (get_default m "status" (Order.status o))
                                 (get_default m "user_id" (Order.user_id o)))).
  - intros _. unfold get_default. rewrite !lookup_empty. by destruct o.
  - intros i x m r Hi IH.
    destruct (raised r) as [e' |] eqn:Hr.
    { rewrite setattr_raised by (by rewrite Hr). by rewrite Hr. }
    specialize (IH eq_refl). unfold setattr. rewrite Hr, IH. unfold Order.set_column.
    cbn [Order.id Order.pickup_address Order.delivery_address Order.status Order.user_id].
    case_attr i "id". case_attr i "pickup_address". case_attr i "delivery_address".
    case_attr i "status". case_attr i "user_id".
    intros _. unfold get_default. rewrite !lookup_insert_ne by done.
    by destruct (setattr_other i x).
Qed.

(** X3. PATCH /users/<id> on an id some user carries, with a body
    whose keys are columns or names that [setattr] sets as plain
    attributes, overrides in the rows under that id exactly the
    columns the body names (the key and the password among them, no
    column being refused) with the body's values, and keeps the
    others.  An accepted commit is answered 200 with the overridden
    row; a refused one 500, the database being left as it was. *)
Theorem UserByID_patch_overrides `{W : World} (id : Z) (req : request) (db : database)
    (user : User.t) :
  query_get id (begin db) = inr (Some user) →
  plain_body User.columns (json req) = true →
  let override := fun u : User.t =>
    User.mk (get_default (json req) "id" (User.id u))
      (get_default (json req) "username" (User.username u))
      (get_default (json req) "email" (User.email u))
      (get_default (json req) "password" (User.password u))
      (get_default (json req) "role" (User.role u)) in
  let db' :=
    mkDatabase (List.map (fun u => if has_pk id u then override u else u) (users db))
      (orders db) (feedbacks db) (parcels db) (profiles db) in
  run (UserByID_patch id req) db
  = match flush db db' with
    | None => ((user_to_dict (override user), 200), db')
    | Some _ => (server_error, db)
    end.
Proof.
  intros Hget Hplain override db'.
  assert (Hfold : ∀ u, raised (apply_json User.set_column (json req) u) = None
                       ∧ to_dict_error (apply_json User.set_column (json req) u) = None
                       ∧ obj (apply_json User.set_column (json req) u) = override u).
  { intros u.
    destruct (apply_json_plain _ _ User_set_column_None (json req) u Hplain) as [Hr Ht].
    auto using User_setattr_fold. }
  unfold run, UserByID_patch. rewrite Hget.
  destruct (Hfold user) as (-> & -> & ->).
  unfold session_commit, session_update. simpl.
  rewrite (List.map_ext _ (fun u => if has_pk id u then override u else u))
    by (intros u; by rewrite (proj2 (proj2 (Hfold u)))).
  fold db'. by destruct (flush db db').
Qed.

(** X4. PATCH /orders/<id> on an id some order carries, with a body
    whose keys are columns or names that [setattr] sets as plain
    attributes, overrides in the rows under that id exactly the
    columns the body names and keeps the others.  An accepted commit
    is answered 200 with the overridden row; a refused one 500, the
    database being left as it was. *)
Theorem OrderByID_patch_overrides `{W : World} (id : Z) (req : request) (db : database)
    (order : Order.t) :
  query_get id (begin db) = inr (Some order) →
  plain_body Order.columns (json req) = true →
  let override := fun o : Order.t =>
    Order.mk (get_default (json req) "id" (Order.id o))
      (get_default (json req) "pickup_address" (Order.pickup_address o))
      (get_default (json req) "delivery_address" (Order.delivery_address o))
      (get_default (json req) "status" (Order.status o))
      (get_default (json req) "user_id" (Order.user_id o)) in
  let db' :=
    mkDatabase (users db)
      (List.map (fun o => if has_pk id o then override o else o) (orders db))
      (feedbacks db) (parcels db) (profiles db) in
  run (OrderByID_patch id req) db
  = match flush db db' with
    | None => ((order_to_dict (override order), 200), db')
    | Some _ => (server_error, db)
    end.
Proof.
  intros Hget Hplain override db'.
  assert (Hfold : ∀ o, raised (apply_json Order.set_column (json req) o) = None
                       ∧ to_dict_error (apply_json Order.set_column (json req) o) = None
                       ∧ obj (apply_json Order.set_column (json req) o) = override o).
  { intros o.
    destruct (apply_json_plain _ _ Order_set_column_None (json req) o Hplain) as [Hr Ht].
    auto using Order_setattr_fold. }
  unfold run, OrderByID_patch. rewrite Hget.
  destruct (Hfold order) as (-> & -> & ->).
  unfold session_commit, session_update. simpl.
  rewrite (List.map_ext _ (fun o => if has_pk id o then override o else o))
    by (intros o; by rewrite (proj2 (proj2 (Hfold o)))).
  fold db'. by destruct (flush db db').
Qed.

(** X5. A PATCH on an existing user whose body names no column (an
    empty body, or only names that [setattr] sets as plain
    attributes) is answered 200 with the user as it was and changes
    nothing, once its commit is accepted. *)
Theorem UserByID_patch_without_columns `{W : World} (id : Z) (req : request)
    (db : database) (user : User.t) :
  query_get id (begin db) = inr (Some user) →
  plain_body User.columns (json req) = true →
  json req !! "id" = None → json req !! "username" = None →
  json req !! "email" = None → json req !! "password" = None →
  json req !! "role" = None →
  flush db db = None →
  run (UserByID_patch id req) db = ((user_to_dict user, 200), db).
Proof.
  intros Hget Hplain H1 H2 H3 H4 H5 Hflush.
  assert (Hfold : ∀ u, raised (apply_json User.set_column (json req) u) = None
                       ∧ to_dict_error (apply_json User.set_column (json req) u) = None
                       ∧ obj (apply_json User.set_column (json req) u) = u).
  { intros u.
    destruct (apply_json_plain _ _ User_set_column_None (json req) u Hplain) as [Hr Ht].
    repeat split; try done. rewrite (User_setattr_fold _ _ Hr). unfold get_default.
    rewrite H1, H2, H3, H4, H5. by destruct u. }
  unfold run, UserByID_patch. rewrite Hget.
  destruct (Hfold user) as (-> & -> & ->).
  unfold session_commit, session_update. simpl.
  rewrite (List.map_ext _ (fun u => u))
    by (intros u; rewrite (proj2 (proj2 (Hfold u))); by destruct (has_pk id u)).
  rewrite List.map_id.
  replace (mkDatabase (users db) (orders db) (feedbacks db) (parcels db) (profiles db))
    with db by (by destruct db).
  by rewrite Hflush.
Qed.


(** X20. PATCH /users/<id> with a body one of whose assignments
    raises is answered 500, and nothing is written. *)
Theorem UserByID_patch_assignment_raises `{W : World} (id : Z) (req : request)
    (db : database) (user : User.t) (k : string) (v : value) (e : exn) :
  query_get id (begin db) = inr (Some user) →
  json req !! k = Some v →
  effect_of User.columns k v = RaisesOnSet e →
  run (UserByID_patch id req) db = (server_error, db).
Proof.
  intros Hget Hk He.
  pose proof (apply_json_raises _ _ User_set_column_None _ user k v e Hk He) as Hr.
  unfold run, UserByID_patch. rewrite Hget.
  by destruct (raised (apply_json User.set_column (json req) user)).
Qed.

Section FilterFacts.
Context `{M : Model R}.

(** The rows a DELETE under [i] leaves: those under another key. *)
Lemma In_filter_out (i : Z) (l : list R) (r : R) :
  In r (List.filter (fun r => negb (has_pk i r)) l) ↔ In r l ∧ pk r ≠ VInt i.
Proof.
  rewrite List.filter_In, negb_true_iff, <- not_true_iff_false, has_pk_true. tauto.
Qed.
End FilterFacts.

(** X6. An accepted DELETE /users/<id> on an id some user carries is
    answered 200; the users left are the former ones under another key,
    and no other table is touched (the orders, feedback and profiles of
    the user stay).  A GET or a second DELETE on the id is then answered
    404. *)
Theorem UserByID_delete_removes `{W : World} (id : Z) (db : database) (user : User.t) :
  query_get id (begin db) = inr (Some user) →
  let db' :=
    mkDatabase (List.filter (fun u => negb (has_pk id u)) (users db)) (orders db)
      (feedbacks db) (parcels db) (profiles db) in
  flush db db' = None →
  run (UserByID_delete id) db = ((message "User deleted", 200), db')
  ∧ (∀ u, In u (users db') ↔ In u (users db) ∧ User.id u ≠ VInt id)
  ∧ run (UserByID_get id) db' = ((message "User not found", 404), db')
  ∧ run (UserByID_delete id) db' = ((message "User not found", 404), db').
Proof.
  intros Hget db' Hflush.
  destruct (query_get_inr _ _ _ Hget) as [Hid _].
  assert (Hgone : query_get (R := User.t) id (begin db') = inr None).
  { rewrite (query_get_in_range _ _ Hid). f_equal.
    apply (find_filter_out (R := User.t)). }
  split; [| split; [| split]].
  - unfold run, UserByID_delete. rewrite Hget.
    unfold session_commit, session_delete. simpl. fold db'. by rewrite Hflush.
  - intros u. exact (In_filter_out (R := User.t) id (users db) u).
  - unfold run, UserByID_get. by rewrite Hgone.
  - unfold run, UserByID_delete. by rewrite Hgone.
Qed.

(** X7. An accepted DELETE /orders/<id> leaves the orders under another
    key and every other table as they were (the parcels that name the
    order stay), and a second DELETE on the id is answered 404. *)
Theorem OrderByID_delete_keeps_the_rest `{W : World} (id : Z) (db : database)
    (order : Order.t) :
  query_get id (begin db) = inr (Some order) →
  let db' :=
    mkDatabase (users db) (List.filter (fun o => negb (has_pk id o)) (orders db))
      (feedbacks db) (parcels db) (profiles db) in
  flush db db' = None →
  snd (run (OrderByID_delete id) db) = db'
  ∧ (∀ o, In o (orders db') ↔ In o (orders db) ∧ Order.id o ≠ VInt id)
  ∧ parcels db' = parcels db
  ∧ run (OrderByID_delete id) db' = ((message "Order not found", 404), db').
Proof.
  intros Hget db' Hflush.
  destruct (query_get_inr _ _ _ Hget) as [Hid _].
  assert (Hgone : query_get (R := Order.t) id (begin db') = inr None).
  { rewrite (query_get_in_range _ _ Hid). f_equal.
    apply (find_filter_out (R := Order.t)). }
  split; [| split; [| split]].
  - unfold run, OrderByID_delete. rewrite Hget.
    unfold session_commit, session_delete. simpl. fold db'. by rewrite Hflush.
  - intros o. exact (In_filter_out (R := Order.t) id (orders db) o).
  - reflexivity.
  - unfold run, OrderByID_delete. by rewrite Hgone.
Qed.

(** X8. An accepted POST /orders is answered 201 and appends one order
    built from the body (a key the body lacks gives [None]); the list
    GET /orders returns next ends with that order and counts one more
    than before. *)
Theorem Orders_post_then_list `{W : World} (req : request) (db : database) :
  let new_order :=
    Order.mk (alloc_id (List.map Order.id (orders db)))
      (get (json req) "pickup_address") (get (json req) "delivery_address")
      (get (json req) "status") (get (json req) "user_id") in
  let db' :=
    mkDatabase (users db) (orders db ++ [new_order]) (feedbacks db) (parcels db)
      (profiles db) in
  flush db db' = None →
  run (Orders_post req) db = ((order_to_dict new_order, 201), db')
  ∧ run Orders_get db'
    = ((listing "orders"
          (List.map order_to_dict (orders db) ++ [order_to_dict new_order]), 200), db')
  ∧ field "count" (fst (fst (run Orders_get db')))
    = Some (VInt (Z.of_nat (length (orders db)) + 1)).
Proof.
  intros new_order db' Hflush. split; [| split].
  - unfold run, Orders_post, session_add, session_commit. simpl.
    fold new_order. fold db'. by rewrite Hflush.
  - unfold run, Orders_get, query_all. simpl. by rewrite List.map_app.
  - unfold run, Orders_get, query_all, field, listing. simpl.
    rewrite length_map, length_app. simpl. do 2 f_equal. lia.
Qed.

(** X9. POST /feedback, POST /parcels and POST /profiles each append to
    their table one row built from the body, under the key the engine
    allocates, and answer 201 with it when the commit is accepted; when
    it raises, nothing catching the exception, the API answers 500 with
    its own message and the database is left as it was. *)
Theorem create_appends_one_row `{W : World} (req : request) (db : database) :
  (let row :=
     Feedback.mk (alloc_id (List.map Feedback.id (feedbacks db)))
       (get (json req) "rating") (get (json req) "comments") (get (json req) "user_id") in
   let db' :=
     mkDatabase (users db) (orders db) (feedbacks db ++ [row]) (parcels db) (profiles db) in
   run (FeedbackResource_post req) db
   = match flush db db' with
     | None => ((feedback_to_dict row, 201), db')
     | Some _ => ((message "Internal Server Error", 500), db)
     end)
  ∧ (let row :=
       Parcel.mk (alloc_id (List.map Parcel.id (parcels db)))
         (get (json req) "description") (get (json req) "weight")
         (get (json req) "dimensions") (get (json req) "order_id") in
     let db' :=
       mkDatabase (users db) (orders db) (feedbacks db) (parcels db ++ [row])
         (profiles db) in
     run (Parcels_post req) db
     = match flush db db' with
       | None => ((parcel_to_dict row, 201), db')
       | Some _ => ((message "Internal Server Error", 500), db)
       end)
  ∧ (let row :=
       Profile.mk (alloc_id (List.map Profile.id (profiles db)))
         (get (json req) "user_id") (get (json req) "bio")
         (get (json req) "profile_picture") in
     let db' :=
       mkDatabase (users db) (orders db) (feedbacks db) (parcels db)
         (profiles db ++ [row]) in
     run (Profiles_post req) db
     = match flush db db' with
       | None => ((profile_to_dict row, 201), db')
       | Some _ => ((message "Internal Server Error", 500), db)
       end).
Proof.
  repeat split; cbv zeta;
    unfold run, FeedbackResource_post, Parcels_post, Profiles_post, session_add,
      session_commit; simpl;
    by destruct (flush db _).
Qed.

(** X10. A signup that gives no email, no password or no username,
    neither in its body nor in its query string or form, is answered
    400 by the parser, with the help text of the first of them that is
    missing under its name, and the database is left as it was. *)
Theorem Signup_missing_field `{W : World} (salt : string) (req : request) (db : database) :
  argument req "email" = None ∨ argument req "password" = None
  ∨ argument req "username" = None →
  run (Signup_post salt req) db
  = (([("message",
        VDict [match argument req "email", argument req "password" with
               | None, _ => ("email", VStr "Email address is required")
               | Some _, None => ("password", VStr "Password is required")
               | Some _, Some _ => ("username", VStr "Username is required")
               end])], 400), db).
Proof.
  intros H. unfold run, Signup_post, register_args. cbn [parse_args].
  unfold parse_argument. cbn [name required default_value help].
  destruct (argument req "email"); [| reflexivity].
  destruct (argument req "password"); [| reflexivity].
  destruct (argument req "username"); [| reflexivity].
  by destruct H as [H | [H | H]].
Qed.

(** X11. A login that gives no email or no password, neither in its
    body nor in its query string or form, is answered 400 by the
    parser, with the help text of the first of them that is missing
    under its name, and the database is left as it was. *)
Theorem Login_missing_field `{W : World} (now1 now2 : Z) (req : request) (db : database) :
  argument req "email" = None ∨ argument req "password" = None →
  run (Login_post now1 now2 req) db
  = (([("message",
        VDict [match argument req "email" with
               | None => ("email", VStr "Email address is required")
               | Some _ => ("password", VStr "Password is required")
               end])], 400), db).
Proof.
  intros H. unfold run, Login_post, login_args. cbn [parse_args].
  unfold parse_argument. cbn [name required default_value help].
  destruct (argument req "email"); [| reflexivity].
  destruct (argument req "password"); [| reflexivity].
  by destruct H.
Qed.

(** X21. A signup whose password the hasher refuses (an empty one, a
    null) is answered 500 by the API, the hashing being outside the
    [try] of the handler; no user is stored. *)
Theorem Signup_hasher_refuses `{W : World} (salt : string) (req : request) (db : database)
    (e p n : value) (err : exn) :
  argument req "email" = Some e →
  argument req "password" = Some p →
  argument req "username" = Some n →
  generate_password_hash salt (convert p) = inl err →
  run (Signup_post salt req) db = ((message "Internal Server Error", 500), db).
Proof.
  intros He Hp Hn Hhash.
  unfold run, Signup_post. rewrite (parse_register_args _ _ _ _ He Hp Hn).
  rewrite (get_insert_ne _ "email" "password"), get_insert_eq by done.
  by rewrite Hhash.
Qed.

(** X12. When the user is found and the password verifies but one of
    the two tokens cannot be encoded, the login is answered 500 with a
    generic message that carries no token (not the first one either),
    and the session is left as it was. *)
Theorem Login_token_failure `{W : World} (now1 now2 : Z) (req : request) (s : session)
    (e p : value) (user : User.t) :
  argument req "email" = Some e →
  argument req "password" = Some p →
  first_by_email (convert e) s = Some user →
  check_password_hash (User.password user) (convert p) = inr true →
  ¬ (∃ token refresh_token,
       jwt_encode (mkClaims (User.id user) (now1 + timedelta 0 1)) SECRET_KEY "HS256"
       = inr token
       ∧ jwt_encode (mkClaims (User.id user) (now2 + timedelta 30 0)) SECRET_KEY "HS256"
         = inr refresh_token) →
  Login_post now1 now2 req s
  = (Return (msg "An error occurred while generating tokens", 500), s).
Proof.
  intros He Hp Hu Hc Hfail. unfold Login_post.
  rewrite (parse_login_args _ _ _ He Hp).
  rewrite get_insert_eq, get_insert_ne, get_insert_eq by done.
  rewrite Hu, Hc. simpl.
  destruct (jwt_encode _ _ _) as [e1 | token]; [reflexivity |].
  destruct (jwt_encode _ _ _) as [e2 | refresh_token]; [reflexivity |].
  destruct Hfail. eauto.
Qed.

(** X13. Whenever a login response carries a token, or has status 200,
    the request gave an email and a password, the first user with that
    email exists and the password verified against that user's stored
    password; the session is then left as it was. *)
Theorem Login_token_requires_password `{W : World} (now1 now2 : Z) (req : request)
    (s s' : session) (body : dict) (code : Z) :
  Login_post now1 now2 req s = (Return (body, code), s') →
  field "token" body ≠ None ∨ field "refresh_token" body ≠ None ∨ code = 200 →
  code = 200 ∧ s' = s
  ∧ ∃ e p user,
      argument req "email" = Some e ∧ argument req "password" = Some p
      ∧ first_by_email (convert e) s = Some user
      ∧ column_eq (User.email user) (convert e) = true
      ∧ check_password_hash (User.password user) (convert p) = inr true.
Proof.
  unfold Login_post, login_args. cbn [parse_args]. unfold parse_argument.
  cbn [name required default_value help].
  destruct (argument req "email") as [e |] eqn:He; [| discriminate].
  destruct (argument req "password") as [p |] eqn:Hp; [| discriminate].
  rewrite get_insert_eq, get_insert_ne, get_insert_eq by done.
  destruct (first_by_email (convert e) s) as [user |] eqn:Hu.
  - destruct (check_password_hash (User.password user) (convert p)) as [err | [|]] eqn:Hc;
      simpl.
    + discriminate.
    + destruct (jwt_encode _ _ _) as [e1 | token].
      { intros [= <- <- <-] [H | [H | H]];
        [destruct H; reflexivity | destruct H; reflexivity | discriminate H]. }
      destruct (jwt_encode _ _ _) as [e2 | refresh_token].
      { intros [= <- <- <-] [H | [H | H]];
        [destruct H; reflexivity | destruct H; reflexivity | discriminate H]. }
      intros [= <- <- <-] _. repeat split.
      exists e, p, user. repeat split; try done. exact (find_true _ _ _ Hu).
    + intros [= <- <- <-] [H | [H | H]];
        [destruct H; reflexivity | destruct H; reflexivity | discriminate H].
  - intros [= <- <- <-] [H | [H | H]];
        [destruct H; reflexivity | destruct H; reflexivity | discriminate H].
Qed.

(** X23. When the check of the password raises (the stored password
    is no hash, as after POST /users, or the password given is null),
    the login is answered 500 by the API, and the database is left as
    it was. *)
Theorem Login_check_raises `{W : World} (now1 now2 : Z) (req : request) (db : database)
    (e p : value) (user : User.t) (err : exn) :
  argument req "email" = Some e →
  argument req "password" = Some p →
  first_by_email (convert e) (begin db) = Some user →
  check_password_hash (User.password user) (convert p) = inl err →
  run (Login_post now1 now2 req) db = ((message "Internal Server Error", 500), db).
Proof.
  intros He Hp Hu Hc. unfold run, Login_post.
  rewrite (parse_login_args _ _ _ He Hp).
  rewrite get_insert_eq, get_insert_ne, get_insert_eq by done.
  by rewrite Hu, Hc.
Qed.

(** X14. A login never changes the database, and its status is one of
    200, 400, 401, 404 and 500. *)
Theorem Login_is_read_only `{W : World} (now1 now2 : Z) (req : request) (db : database) :
  snd (run (Login_post now1 now2 req) db) = db
  ∧ status (fst (run (Login_post now1 now2 req) db)) ∈ [200; 400; 401; 404; 500].
Proof.
  unfold run, Login_post. repeat case_match; simplify_eq; simpl;
    (split; [reflexivity | set_solver]).
Qed.

(** [find] on a list extended by one element. *)
Lemma find_snoc_None {A : Type} (f : A → bool) (l : list A) (x : A) :
  List.find f l = None → List.find f (l ++ [x]) = if f x then Some x else None.
Proof.
  induction l as [| a l IH]; simpl; [done |].
  destruct (f a); [discriminate | exact IH].
Qed.

(** X15. After an accepted signup with an email no user had and a
    password the hasher accepts, a login with the same email and
    password is answered 200 with two tokens whose identity is the id
    of the new user, provided the hasher verifies the hash it made and
    the encoder succeeds. *)
Theorem Signup_then_Login `{W : World} (salt : string) (now1 now2 : Z)
    (signup login : request) (db : database) (e p : string) (n : value)
    (hashed token refresh_token : string) :
  argument signup "email" = Some (VStr e) →
  argument signup "password" = Some (VStr p) →
  argument signup "username" = Some n →
  argument login "email" = Some (VStr e) →
  argument login "password" = Some (VStr p) →
  first_by_email (VStr e) (begin db) = None →
  generate_password_hash salt (VStr p) = inr hashed →
  check_password_hash (VStr hashed) (VStr p) = inr true →
  let new_user :=
    User.insert_defaults
      (User.mk (alloc_id (List.map User.id (users db))) (convert n) (VStr e)
         (VStr hashed) (parsed_role signup)) in
  let db' :=
    mkDatabase (users db ++ [new_user]) (orders db) (feedbacks db) (parcels db)
      (profiles db) in
  flush db db' = None →
  jwt_encode (mkClaims (User.id new_user) (now1 + timedelta 0 1)) SECRET_KEY "HS256"
  = inr token →
  jwt_encode (mkClaims (User.id new_user) (now2 + timedelta 30 0)) SECRET_KEY "HS256"
  = inr refresh_token →
  run (Signup_post salt signup) db = ((msg "User created successfully", 201), db')
  ∧ run (Login_post now1 now2 login) db'
    = (([("token", VStr token); ("refresh_token", VStr refresh_token)], 200), db').
Proof.
  intros Hse Hsp Hsn Hle Hlp Hnew Hhashed Hcheck new_user db' Hflush Ht Hr. split.
  - unfold run, Signup_post. rewrite (parse_register_args _ _ _ _ Hse Hsp Hsn).
    rewrite (get_insert_ne _ "email" "password"), get_insert_eq by done.
    change (convert (VStr p)) with (VStr p). rewrite Hhashed.
    unfold Signup_new_user, get_default.
    rewrite !get_insert_eq.
    rewrite (get_insert_ne _ "email" "username"), (get_insert_ne _ "password" "username"),
      get_insert_eq by done.
    rewrite !lookup_insert_ne, lookup_insert_eq by done.
    unfold session_add, session_commit. simpl.
    fold new_user. fold db'. by rewrite Hflush.
  - assert (Hfields : User.email new_user = VStr e ∧ User.password new_user = VStr hashed).
    { subst new_user. unfold User.insert_defaults. by destruct (parsed_role signup). }
    destruct Hfields as [Hemail Hpw].
    unfold run, Login_post. rewrite (parse_login_args _ _ _ Hle Hlp).
    rewrite get_insert_eq, get_insert_ne, get_insert_eq by done.
    change (convert (VStr e)) with (VStr e). change (convert (VStr p)) with (VStr p).
    assert (Hfind : first_by_email (VStr e) (begin db') = Some new_user).
    { unfold first_by_email, query_all in *. simpl in *.
      rewrite (find_snoc_None _ _ _ Hnew). rewrite Hemail. simpl.
      by rewrite String.eqb_refl. }
    rewrite Hfind, Hpw, Hcheck. by rewrite Ht, Hr.
Qed.

(** Digits read after a non-negative prefix give a non-negative
    number. *)
Lemma digits_value_nonneg (s : string) (acc v : Z) :
  (0 ≤ acc)%Z → digits_value acc s = Some v → (0 ≤ v)%Z.
Proof.
  revert acc. induction s as [| c s IH]; intros acc Hacc; simpl.
  - by intros [= <-].
  - destruct (is_digit c) eqn:Hc; [| discriminate].
    apply IH. unfold is_digit in Hc. lia.
Qed.

(** The rules of the API match the seven collection paths and the two
    by-id paths, and no other. *)
Lemma find_rule_resources `{W : World} (p : list string) (r : resource) (arg : option Z) :
  find_rule resources p = Some (r, arg)
  ↔ (arg = None
     ∧ In (r, p) [ (Signup, ["signup"]); (Login, ["login"]); (Users, ["users"]);
                   (Orders, ["orders"]); (FeedbackResource, ["feedback"]);
                   (Parcels, ["parcels"]); (Profiles, ["profiles"]) ])
    ∨ (∃ seg id, arg = Some id ∧ int_converter seg = Some id
                 ∧ ((r = UserByID ∧ p = ["users"; seg])
                    ∨ (r = OrderByID ∧ p = ["orders"; seg]))).
Proof.
  split.
  - unfold resources. destruct p as [| a [| b [| c p]]]; cbn [find_rule match_rule].
    + discriminate.
    + repeat (match goal with
              | |- context [String.eqb ?x a] =>
                  destruct (String.eqb_spec x a) as [<- | ?]
              end; [intros [= <- <-]; left; split; [done | simpl; tauto] |]).
      discriminate.
    + repeat (match goal with
              | |- context [String.eqb ?x a] =>
                  destruct (String.eqb_spec x a) as [<- | ?]
              end;
              [destruct (int_converter b) as [id |] eqn:Hb; [| discriminate];
               intros [= <- <-]; right; exists b, id; eauto 10 |]).
      discriminate.
    + repeat (match goal with
              | |- context [String.eqb ?x a] => destruct (String.eqb x a)
              | |- context [String.eqb ?x b] => destruct (String.eqb x b)
              | |- context [int_converter b] => destruct (int_converter b)
              end); discriminate.
  - intros [[-> Hin] | (seg & id & -> & Hseg & [[-> ->] | [-> ->]])].
    + simpl in Hin.
      repeat (destruct Hin as [[= <- <-] | Hin]; [reflexivity |]). destruct Hin.
    + by apply find_rule_users.
    + by apply find_rule_orders.
Qed.

(** X16. The routes of the application are exactly these.  A path
    reaches a resource of the API when, and only when, it is one of
    the seven one-segment collection paths, with no argument, or
    /users/<seg> or /orders/<seg> where the converter reads <seg> as a
    number, which is then the id handed to the resource; for a segment
    of ASCII characters that number is never negative.  Besides, the
    application serves / (GET gives the welcome page, any other method
    the framework's page for 405) and /static/<path>.  Every other path
    is answered by the application's handler for 404. *)
Theorem routes_characterised `{W : World} :
  (∀ p r arg,
     find_rule resources p = Some (r, arg)
     ↔ (arg = None
        ∧ In (r, p) [ (Signup, ["signup"]); (Login, ["login"]); (Users, ["users"]);
                      (Orders, ["orders"]); (FeedbackResource, ["feedback"]);
                      (Parcels, ["parcels"]); (Profiles, ["profiles"]) ])
       ∨ (∃ seg id, arg = Some id ∧ int_converter seg = Some id
                    ∧ ((r = UserByID ∧ p = ["users"; seg])
                       ∨ (r = OrderByID ∧ p = ["orders"; seg]))))
  ∧ (∀ seg id, forallb is_ascii (list_ascii_of_string seg) = true →
       int_converter seg = Some id → (0 ≤ id)%Z)
  ∧ (∀ p, app_route p ≠ None
          ↔ p = [] ∨ ∃ seg rest, seg ≠ "" ∧ p = "static" :: seg :: rest)
  ∧ (∀ e m body vals db,
       dispatch e (mkRequest m [] body vals) db
       = (match m with
          | GET => Page "<h1>Welcome to Sendit App</h1>" 200
          | _ => Page (default_page 405) 405
          end, db))
  ∧ (∀ e req db,
       app_route (path req) = None → find_rule resources (path req) = None →
       dispatch e req db = (Json (not_found str_not_found), db)).
Proof.
  split; [exact find_rule_resources | split; [| split; [| split]]].
  - intros seg id Hascii. unfold int_converter. rewrite Hascii.
    destruct seg; [discriminate |]. by apply digits_value_nonneg.
  - intros p. unfold app_route. split.
    + destruct p as [| a [| seg rest]]; [by left | done |].
      destruct (String.eqb_spec a "static") as [-> | ?]; [| done].
      destruct (String.eqb_spec seg "") as [-> | ?]; [done |].
      intros _. right. by exists seg, rest.
    + intros [-> | (seg & rest & Hseg & ->)]; [done |].
      rewrite String.eqb_refl. by destruct (String.eqb_spec seg "").
  - intros e m body vals db. unfold dispatch. cbn [path app_route method].
    by destruct m.
  - intros e req db Happ Hrule. unfold dispatch. by rewrite Happ, Hrule.
Qed.

(** X17. Whatever the request, the database after it is either the
    database before it or one the engine accepted at a commit of that
    request. *)
Theorem dispatch_changes_only_by_commit `{W : World} (e : environ) (req : request)
    (db : database) :
  snd (dispatch e req db) = db ∨ flush db (snd (dispatch e req db)) = None.
Proof.
  unfold dispatch.
  destruct (app_route (path req)) as [[served |] |].
  { destruct (method req); by left. }
  { destruct (method req); by left. }
  destruct (find_rule resources (path req)) as [[r arg] |]; [| by left].
  destruct r, arg as [id |], (method req); cbn [view]; try (by left);
    unfold_handlers; cbn [committed working];
    repeat case_match; simplify_eq; cbn [snd committed working]; auto.
Qed.

(** X18. A GET, a PUT, and any request answered with a status other
    than 200 and 201 leave the database as it was, a PATCH whose body
    shadows what [to_dict()] needs apart: nothing else is written on
    an error. *)
Theorem dispatch_writes_only_on_success `{W : World} (e : environ) (req : request)
    (db : database) :
  (method req = PATCH →
   ∀ k v err, json req !! k = Some v → setattr_other k v ≠ BreaksToDict err) →
  method req = GET ∨ method req = PUT
  ∨ (reply_status (fst (dispatch e req db)) ≠ 200
     ∧ reply_status (fst (dispatch e req db)) ≠ 201) →
  snd (dispatch e req db) = db.
Proof.
  intros Hpatch. unfold dispatch.
  destruct (app_route (path req)) as [[served |] |].
  { by destruct (method req). }
  { by destruct (method req). }
  destruct (find_rule resources (path req)) as [[r arg] |]; [| done].
  destruct r, arg as [id |], (method req) eqn:Hm; cbn [view]; try done.
  all: try (unfold_handlers; cbn [committed working];
            repeat case_match; simplify_eq;
            cbn [fst snd status reply_status respond committed working];
            try done; intros [? | [? | [? ?]]]; done).
  - intros [? | [? | [H200 _]]]; try done. revert H200.
    unfold run, UserByID_patch.
    destruct (query_get id (begin db)) as [err | [user |]]; try done.
    assert (Ht : to_dict_error (apply_json User.set_column (json req) user) = None).
    { destruct (to_dict_error _) as [err |] eqn:Ht; [| done].
      destruct (apply_json_to_dict_error _ _ User_set_column_None (json req) user) as (k & v & x & Hk & Hx);
        [by rewrite Ht |].
      by destruct (Hpatch eq_refl k v x Hk). }
    rewrite Ht. destruct (raised _); [done |].
    destruct (session_commit _); [done |]. cbn. intros H. by destruct H.
  - intros [? | [? | [H200 _]]]; try done. revert H200.
    unfold run, OrderByID_patch.
    destruct (query_get id (begin db)) as [err | [order |]]; try done.
    assert (Ht : to_dict_error (apply_json Order.set_column (json req) order) = None).
    { destruct (to_dict_error _) as [err |] eqn:Ht; [| done].
      destruct (apply_json_to_dict_error _ _ Order_set_column_None (json req) order) as (k & v & x & Hk & Hx);
        [by rewrite Ht |].
      by destruct (Hpatch eq_refl k v x Hk). }
    rewrite Ht. destruct (raised _); [done |].
    destruct (session_commit _); [done |]. cbn. intros H. by destruct H.
Qed.

(** X22. GET, PATCH and DELETE on /users/<id> and /orders/<id> with an
    id beyond the integers SQLite holds are answered 500, not 404, the
    lookup raising; the database is left as it was. *)
Theorem by_id_beyond_sqlite `{W : World} (e : environ) (m : http_method) (seg : string)
    (id : Z) (body : gmap string value) (vals : gmap string string) (db : database) :
  by_id_method m = true →
  int_converter seg = Some id →
  sqlite_integer id = false →
  dispatch e (mkRequest m ["users"; seg] body vals) db
  = (Json (message "Internal Server Error", 500), db)
  ∧ dispatch e (mkRequest m ["orders"; seg] body vals) db
    = (Json (message "Internal Server Error", 500), db).
Proof.
  intros Hm Hseg Hid. unfold dispatch. cbn [path].
  change (app_route ["users"; seg]) with (@None (option reply)).
  change (app_route ["orders"; seg]) with (@None (option reply)).
  rewrite (find_rule_users _ _ Hseg), (find_rule_orders _ _ Hseg).
  split; destruct m; try discriminate; cbn [view method];
    unfold run, UserByID_get, UserByID_patch, UserByID_delete,
      OrderByID_get, OrderByID_patch, OrderByID_delete, query_get;
    by rewrite Hid.
Qed.

(** ** The further properties on the sample databases *)

(** GET /users/9 on the sample database, where alice has the id 1. *)
Lemma UserByID_get_404_iff_witness :
  (status (fst (run (UserByID_get (W := Sample.world) 9) Sample.db1)) = 404
   ↔ ∀ u, In u (users Sample.db1) → User.id u ≠ VInt 9)
  ∧ run (UserByID_get (W := Sample.world) 9) Sample.db1
    = ((message "User not found", 404), Sample.db1).
Proof.
  split; [| reflexivity].
  exact (proj1 (UserByID_get_404_iff (W := Sample.world) 9 Sample.db1 eq_refl)).
Defined.

(** GET /orders/7 on the sample database. *)
Lemma OrderByID_get_404_iff_witness :
  (status (fst (run (OrderByID_get (W := Sample.world) 7) Sample.db1)) = 404
   ↔ ∀ o, In o (orders Sample.db1) → Order.id o ≠ VInt 7)
  ∧ fst (run (OrderByID_get (W := Sample.world) 7) Sample.db1)
    = (order_to_dict (World := Sample.world) Sample.parcel_order, 200).
Proof.
  split; [| reflexivity].
  exact (proj1 (OrderByID_get_404_iff (W := Sample.world) 7 Sample.db1 eq_refl)).
Defined.

(** Alice is given the role "admin" and a key that is no column. *)
Lemma UserByID_patch_overrides_witness :
  run (UserByID_patch (W := Sample.world) 1
         (Cases.patch_request ["users"; "1"]
            [("role", VStr "admin"); ("nickname", VStr "al")])) Sample.db1
  = (([("id", VInt 1); ("username", VStr "alice"); ("email", VStr "alice@sendit.test");
       ("role", VStr "admin")], 200),
     Sample.with_users
       [User.mk (VInt 1) (VStr "alice") (VStr "alice@sendit.test")
          (VStr "$2b$salt$wonderland") (VStr "admin")]).
Proof.
  exact (UserByID_patch_overrides (W := Sample.world) 1
           (Cases.patch_request ["users"; "1"]
              [("role", VStr "admin"); ("nickname", VStr "al")])
           Sample.db1 Sample.alice eq_refl eq_refl).
Defined.

(** Order 7 is marked delivered. *)
Lemma OrderByID_patch_overrides_witness :
  run (OrderByID_patch (W := Sample.world) 7
         (Cases.patch_request ["orders"; "7"] [("status", VStr "delivered")])) Sample.db1
  = (([("id", VInt 7); ("pickup_address", VStr "12 Quay St");
       ("delivery_address", VStr "3 Hill Rd"); ("status", VStr "delivered");
       ("user_id", VInt 1)], 200),
     mkDatabase [Sample.alice]
       [Order.mk (VInt 7) (VStr "12 Quay St") (VStr "3 Hill Rd") (VStr "delivered")
          (VInt 1)]
       [Sample.complaint] [] []).
Proof.
  exact (OrderByID_patch_overrides (W := Sample.world) 7
           (Cases.patch_request ["orders"; "7"] [("status", VStr "delivered")])
           Sample.db1 Sample.parcel_order eq_refl eq_refl).
Defined.

(** A body with an unknown key only. *)
Lemma UserByID_patch_without_columns_witness :
  run (UserByID_patch (W := Sample.world) 1
         (Cases.patch_request ["users"; "1"] [("nickname", VStr "al")])) Sample.db1
  = ((user_to_dict (World := Sample.world) Sample.alice, 200), Sample.db1).
Proof.
  exact (UserByID_patch_without_columns (W := Sample.world) 1
           (Cases.patch_request ["users"; "1"] [("nickname", VStr "al")])
           Sample.db1 Sample.alice
           eq_refl eq_refl eq_refl eq_refl eq_refl eq_refl eq_refl eq_refl).
Defined.


(** A body that assigns [__class__]: 500, alice keeps her name. *)
Lemma UserByID_patch_assignment_raises_witness :
  run (UserByID_patch (W := Sample.world) 1
         (Cases.patch_request ["users"; "1"]
            [("username", VStr "al"); ("__class__", VInt 5)])) Sample.db1
  = ((message "Internal Server Error", 500), Sample.db1).
Proof.
  exact (UserByID_patch_assignment_raises (W := Sample.world) 1
           (Cases.patch_request ["users"; "1"]
              [("username", VStr "al"); ("__class__", VInt 5)])
           Sample.db1 Sample.alice "__class__" (VInt 5)
           (Exn "TypeError" "__class__ must be set to a class")
           eq_refl eq_refl eq_refl).
Defined.

(** Alice is deleted; her order and her feedback stay. *)
Lemma UserByID_delete_removes_witness :
  run (UserByID_delete (W := Sample.world) 1) Sample.db1
  = ((message "User deleted", 200), Sample.with_users [])
  ∧ run (UserByID_get (W := Sample.world) 1) (Sample.with_users [])
    = ((message "User not found", 404), Sample.with_users [])
  ∧ run (UserByID_delete (W := Sample.world) 1) (Sample.with_users [])
    = ((message "User not found", 404), Sample.with_users []).
Proof.
  pose proof (UserByID_delete_removes (W := Sample.world) 1 Sample.db1 Sample.alice
                eq_refl eq_refl) as (H1 & _ & H2 & H3).
  exact (conj H1 (conj H2 H3)).
Defined.

(** Order 7 is deleted; the parcel that names it stays. *)
Lemma OrderByID_delete_keeps_the_rest_witness :
  snd (run (OrderByID_delete (W := Sample.world) 7) Cases.with_parcel)
  = mkDatabase [Sample.alice] [] [] [Cases.box] []
  ∧ run (OrderByID_delete (W := Sample.world) 7)
      (mkDatabase [Sample.alice] [] [] [Cases.box] [])
    = ((message "Order not found", 404), mkDatabase [Sample.alice] [] [] [Cases.box] []).
Proof.
  pose proof (OrderByID_delete_keeps_the_rest (W := Sample.world) 7 Cases.with_parcel
                Sample.parcel_order eq_refl eq_refl) as (H1 & _ & _ & H2).
  exact (conj H1 H2).
Defined.

(** An order is created with two of its four fields, then listed. *)
Lemma Orders_post_then_list_witness :
  run (Orders_post (W := Sample.world) Cases.new_order_request) Sample.db1
  = (([("id", VInt 8); ("pickup_address", VStr "1 Dock Rd"); ("delivery_address", VNone);
       ("status", VNone); ("user_id", VInt 1)], 201),
     mkDatabase [Sample.alice]
       [Sample.parcel_order; Order.mk (VInt 8) (VStr "1 Dock Rd") VNone VNone (VInt 1)]
       [Sample.complaint] [] [])
  ∧ field "count"
      (fst (fst (run (Orders_get (W := Sample.world))
                   (mkDatabase [Sample.alice]
                      [Sample.parcel_order;
                       Order.mk (VInt 8) (VStr "1 Dock Rd") VNone VNone (VInt 1)]
                      [Sample.complaint] [] []))))
    = Some (VInt 2).
Proof.
  pose proof (Orders_post_then_list (W := Sample.world) Cases.new_order_request
                Sample.db1 eq_refl) as (H1 & _ & H2).
  exact (conj H1 H2).
Defined.

(** A signup without a username. *)
Lemma Signup_missing_field_witness :
  run (Signup_post (W := Sample.world) "salt"
         (mkRequest POST ["signup"]
            (Sample.body [("email", VStr "bob@sendit.test"); ("password", VStr "x")]) ∅))
    Sample.db1
  = (([("message", VDict [("username", VStr "Username is required")])], 400), Sample.db1).
Proof.
  exact (Signup_missing_field (W := Sample.world) "salt"
           (mkRequest POST ["signup"]
              (Sample.body [("email", VStr "bob@sendit.test"); ("password", VStr "x")]) ∅)
           Sample.db1 (or_intror (or_intror eq_refl))).
Defined.

(** A login with an empty body. *)
Lemma Login_missing_field_witness :
  run (Login_post (W := Sample.world) 5 6 (mkRequest POST ["login"] ∅ ∅)) Sample.db1
  = (([("message", VDict [("email", VStr "Email address is required")])], 400),
     Sample.db1).
Proof.
  exact (Login_missing_field (W := Sample.world) 5 6 (mkRequest POST ["login"] ∅ ∅)
           Sample.db1 (or_introl eq_refl)).
Defined.

(** A signup with an empty password. *)
Lemma Signup_hasher_refuses_witness :
  run (Signup_post (W := Sample.world) "salt"
         (Sample.signup_request "bob@sendit.test" "" "bob")) Sample.db1
  = ((message "Internal Server Error", 500), Sample.db1).
Proof.
  exact (Signup_hasher_refuses (W := Sample.world) "salt"
           (Sample.signup_request "bob@sendit.test" "" "bob") Sample.db1
           (VStr "bob@sendit.test") (VStr "") (VStr "bob")
           (Exn "ValueError" "Password must be non-empty.")
           eq_refl eq_refl eq_refl eq_refl).
Defined.

(** Eve's key cannot be encoded: her login is answered 500. *)
Lemma Login_token_failure_witness :
  Login_post (W := Sample.world) 5 6 (Sample.login_request "eve@sendit.test" "secret")
    (begin Cases.only_eve)
  = (Return (msg "An error occurred while generating tokens", 500), begin Cases.only_eve).
Proof.
  refine (Login_token_failure (W := Sample.world) 5 6
            (Sample.login_request "eve@sendit.test" "secret") (begin Cases.only_eve)
            (VStr "eve@sendit.test") (VStr "secret") Cases.eve
            eq_refl eq_refl eq_refl eq_refl _).
  intros (token & refresh_token & H & _). discriminate H.
Defined.

(** Alice's successful login, read backwards. *)
Lemma Login_token_requires_password_witness :
  200 = 200 ∧ begin Sample.db1 = begin Sample.db1
  ∧ ∃ e p user,
      argument (Sample.login_request "alice@sendit.test" "wonderland") "email" = Some e
      ∧ argument (Sample.login_request "alice@sendit.test" "wonderland") "password" = Some p
      ∧ first_by_email (convert (W := Sample.world) e) (begin Sample.db1) = Some user
      ∧ column_eq (User.email user) (convert (W := Sample.world) e) = true
      ∧ check_password_hash (World := Sample.world) (User.password user)
          (convert (W := Sample.world) p) = inr true.
Proof.
  exact (Login_token_requires_password (W := Sample.world)
           1700000000000000 1700000000000250
           (Sample.login_request "alice@sendit.test" "wonderland")
           (begin Sample.db1) (begin Sample.db1)
           [("token", VStr "HS256.1.1700003600.9d970c5fb1d04ea380828d9c491448ce");
            ("refresh_token", VStr "HS256.1.1702592000.9d970c5fb1d04ea380828d9c491448ce")]
           200 eq_refl (or_intror (or_intror eq_refl))).
Defined.

(** Alice logs in with her email in the query string and a list of
    passwords in the body, of which the first counts. *)
Example Login_mixed_sources_example :
  argument Cases.mixed_login_request "email" = Some (VStr "alice@sendit.test")
  ∧ argument Cases.mixed_login_request "password" = Some (VStr "wonderland")
  ∧ status (fst (run (Login_post (W := Sample.world) 1700000000000000 1700000000000250
                        Cases.mixed_login_request) Sample.db1)) = 200.
Proof. repeat split. Qed.

(** Bob, whom POST /users has stored with his password as it was
    sent, cannot log in: the check raises. *)
Lemma Login_check_raises_witness :
  run (Login_post (W := Sample.world) 5 6 (Sample.login_request "bob@sendit.test" "hunter2"))
    (Sample.with_users [Sample.alice; Sample.bob (VStr "hunter2") (VStr "customer")])
  = ((message "Internal Server Error", 500),
     Sample.with_users [Sample.alice; Sample.bob (VStr "hunter2") (VStr "customer")]).
Proof.
  exact (Login_check_raises (W := Sample.world) 5 6
           (Sample.login_request "bob@sendit.test" "hunter2")
           (Sample.with_users [Sample.alice; Sample.bob (VStr "hunter2") (VStr "customer")])
           (VStr "bob@sendit.test") (VStr "hunter2")
           (Sample.bob (VStr "hunter2") (VStr "customer"))
           (Exn "ValueError" "Invalid salt") eq_refl eq_refl eq_refl eq_refl).
Defined.

(** Bob signs up, then logs in. *)
Lemma Signup_then_Login_witness :
  run (Signup_post (W := Sample.world) "salt"
         (Sample.signup_request "bob@sendit.test" "hunter2" "bob")) Sample.db1
  = ((msg "User created successfully", 201),
     Sample.with_users
       [Sample.alice; Sample.bob (VStr "$2b$salt$hunter2") (VStr "customer")])
  ∧ run (Login_post (W := Sample.world) 1700000000000000 1700000000000250
           (Sample.login_request "bob@sendit.test" "hunter2"))
      (Sample.with_users
         [Sample.alice; Sample.bob (VStr "$2b$salt$hunter2") (VStr "customer")])
    = (([("token", VStr "HS256.2.1700003600.9d970c5fb1d04ea380828d9c491448ce");
         ("refresh_token", VStr "HS256.2.1702592000.9d970c5fb1d04ea380828d9c491448ce")],
        200),
       Sample.with_users
         [Sample.alice; Sample.bob (VStr "$2b$salt$hunter2") (VStr "customer")]).
Proof.
  exact (Signup_then_Login (W := Sample.world) "salt" 1700000000000000 1700000000000250
           (Sample.signup_request "bob@sendit.test" "hunter2" "bob")
           (Sample.login_request "bob@sendit.test" "hunter2") Sample.db1
           "bob@sendit.test" "hunter2" (VStr "bob") "$2b$salt$hunter2"
           "HS256.2.1700003600.9d970c5fb1d04ea380828d9c491448ce"
           "HS256.2.1702592000.9d970c5fb1d04ea380828d9c491448ce"
           eq_refl eq_refl eq_refl eq_refl eq_refl eq_refl eq_refl eq_refl eq_refl
           eq_refl eq_refl).
Defined.

(** DELETE /users/9 on the sample database: 404, nothing written. *)
Lemma dispatch_writes_only_on_success_witness :
  snd (dispatch (W := Sample.world) Sample.env (mkRequest DELETE ["users"; "9"] ∅ ∅)
         Sample.db1)
  = Sample.db1.
Proof.
  refine (dispatch_writes_only_on_success (W := Sample.world) Sample.env
            (mkRequest DELETE ["users"; "9"] ∅ ∅) Sample.db1 _ (or_intror (or_intror _))).
  - intros H. discriminate H.
  - split; discriminate.
Defined.

(** GET /users/9223372036854775808 on the sample database. *)
Lemma by_id_beyond_sqlite_witness :
  dispatch (W := Sample.world) Sample.env (mkRequest GET ["users"; Cases.huge] ∅ ∅)
    Sample.db1
  = (Json (message "Internal Server Error", 500), Sample.db1).
Proof.
  exact (proj1 (by_id_beyond_sqlite (W := Sample.world) Sample.env GET Cases.huge
                  Cases.huge_id ∅ ∅ Sample.db1 eq_refl eq_refl eq_refl)).
Defined.
